(** * mapper/emulation.py: the emulated world of mapperproxy-mume

    A shallow embedding of [EmulatedWorld] (the offline command interpreter,
    the movement state machine and the exits renderer) and the properties
    of it that the specification states.

    Python strings are modelled as [string]; a character is a code point
    below 256.  Dictionaries keyed by strings are [gmap string _]. *)

From Stdlib Require Import ZArith Ascii String List Bool DecimalString.
From Stdlib Require Import Floats.SpecFloat.
From stdpp Require Import gmap strings list fin_maps sorting.

Open Scope string_scope.
Open Scope list_scope.

(* ===================================================================== *)
(** * Part I: the program and the statements about it *)
(* ===================================================================== *)

(* --------------------------------------------------------------------- *)
(** ** Python string primitives *)
(* --------------------------------------------------------------------- *)

Module PyStr.

Definition code (c : ascii) : N := N_of_ascii c.

(** [str.isspace] on one character: TAB..CR, FS..US, space, NEL, NBSP. *)
Definition isspace (c : ascii) : bool :=
  let n := code c in
  ((9 <=? n) && (n <=? 13) || (28 <=? n) && (n <=? 32)
   || (n =? 133) || (n =? 160))%N.

(** The characters [str.splitlines] breaks a line at: LF, VT, FF, CR,
    FS, GS, RS and NEL (US is white space but no line boundary). *)
Definition islinebreak (c : ascii) : bool :=
  let n := code c in
  ((10 <=? n) && (n <=? 13) || (28 <=? n) && (n <=? 30) || (n =? 133))%N.

(** [str.isdigit] on one character: 0-9 and the superscripts 2, 3, 1. *)
Definition isdigit_char (c : ascii) : bool :=
  let n := code c in
  ((48 <=? n) && (n <=? 57) || (n =? 178) || (n =? 179) || (n =? 185))%N.

Fixpoint all_chars (p : ascii -> bool) (s : string) : bool :=
  match s with
  | EmptyString => true
  | String c s' => p c && all_chars p s'
  end.

(** [s.isdigit()]: at least one character, and all of them digits. *)
Definition isdigit (s : string) : bool :=
  match s with
  | EmptyString => false
  | _ => all_chars isdigit_char s
  end.

(** Truth value of a string: [bool(s)]. *)
Definition nonempty (s : string) : bool :=
  match s with EmptyString => false | _ => true end.

Fixpoint lstrip (s : string) : string :=
  match s with
  | String c s' => if isspace c then lstrip s' else s
  | EmptyString => EmptyString
  end.

Fixpoint rev_onto (s acc : string) : string :=
  match s with
  | EmptyString => acc
  | String c s' => rev_onto s' (String c acc)
  end.

Definition rev (s : string) : string := rev_onto s EmptyString.

Definition rstrip (s : string) : string := rev (lstrip (rev s)).

(** [s.strip()] *)
Definition strip (s : string) : string := rstrip (lstrip s).

(** [s.splitlines()].  [cur] holds the current line reversed and
    [after_cr] tells that the previous character was a CR, so that a
    following LF belongs to the same boundary. *)
Fixpoint splitlines_from (after_cr : bool) (cur : string) (s : string)
  : list string :=
  match s with
  | EmptyString =>
      match cur with EmptyString => [] | _ => [rev cur] end
  | String c s' =>
      if after_cr && (code c =? 10)%N then splitlines_from false cur s'
      else if islinebreak c
           then rev cur :: splitlines_from (code c =? 13)%N EmptyString s'
           else splitlines_from false (String c cur) s'
  end.

Definition splitlines (s : string) : list string :=
  splitlines_from false EmptyString s.

(** [sep.join(parts)] *)
Fixpoint join (sep : string) (parts : list string) : string :=
  match parts with
  | [] => EmptyString
  | [p] => p
  | p :: rest => p +:+ sep +:+ join sep rest
  end.

(** [s.startswith(p)] *)
Definition startswith (s p : string) : bool := String.prefix p s.

(** The capital of one character, for the letters whose capital is one
    Latin-1 character: a-z and the small letters 224..254 but the
    division sign.  The sharp s (223), the micro sign (181) and y with
    diaeresis (255), whose capitals are not one character below 256, are
    left as they are: see [has_latin1_capital]. *)
Definition upper_char (c : ascii) : ascii :=
  let n := code c in
  if ((97 <=? n) && (n <=? 122)
      || (224 <=? n) && (n <=? 254) && negb (n =? 247))%N
  then ascii_of_N (n - 32) else c.

(** [str.lower] on one character: A-Z and the capital letters 192..222
    but the multiplication sign move up by 32. *)
Definition lower_char (c : ascii) : ascii :=
  let n := code c in
  if ((65 <=? n) && (n <=? 90)
      || (192 <=? n) && (n <=? 222) && negb (n =? 215))%N
  then ascii_of_N (n + 32) else c.

Fixpoint map_chars (f : ascii -> ascii) (s : string) : string :=
  match s with
  | EmptyString => EmptyString
  | String c s' => String (f c) (map_chars f s')
  end.

(** The strings that [str.capitalize] maps to a string of characters
    below 256, the same in every version of Python: those that do not
    begin with the sharp s, the micro sign or y with diaeresis. *)
Definition has_latin1_capital (s : string) : bool :=
  match s with
  | EmptyString => true
  | String c _ =>
      let n := code c in negb ((n =? 181) || (n =? 223) || (n =? 255))%N
  end.

(** [s.capitalize()]: the capital of the first character, the rest in
    lower case; it is what Python returns on the strings that
    [has_latin1_capital] admits. *)
Definition capitalize (s : string) : string :=
  match s with
  | EmptyString => EmptyString
  | String c s' => String (upper_char c) (map_chars lower_char s')
  end.

(** [x in xs] for a list or set of strings. *)
Definition mem (x : string) (xs : list string) : bool :=
  existsb (String.eqb x) xs.

End PyStr.

(* --------------------------------------------------------------------- *)
(** ** Data model *)
(* --------------------------------------------------------------------- *)

(** Values that [json.load] produces and that the configuration
    dictionary therefore holds. *)
#[warnings="-register-all"] Inductive json : Type :=
| JNull
| JBool (b : bool)
| JInt (n : Z)
| JFloat (f : spec_float)
| JStr (s : string)
| JList (items : list json)
| JObj (members : list (string * json)).

(** Python's truth value of a JSON value ([not v] is its negation). *)
Definition truthy (v : json) : bool :=
  match v with
  | JNull => false
  | JBool b => b
  | JInt n => negb (n =? 0)%Z
  | JFloat (S754_zero _) => false
  | JFloat _ => true
  | JStr s => PyStr.nonempty s
  | JList [] => false
  | JList _ => true
  | JObj [] => false
  | JObj _ => true
  end.

(** [v == False]: Python's [False] equals [False], the integer [0] and the
    floats [0.0] and [-0.0], and nothing else. *)
Definition eq_False (v : json) : bool :=
  match v with
  | JBool b => negb b
  | JInt n => (n =? 0)%Z
  | JFloat (S754_zero _) => true
  | _ => false
  end.

(** An exit of a room (the [Exit] objects of the room database). *)
Record Exit : Type := mkExit {
  to : string;
  door : string;
  exitFlags : list string;
  doorFlags : list string
}.

Record Room : Type := mkRoom {
  vnum : string;
  name : string;
  desc : string;
  dynamicDesc : string;
  terrain : string;
  note : string;
  exits : gmap string Exit
}.

(** The fields of [EmulatedWorld] that the methods below use, and
    [paged]: the sequences of lines handed to [utils.page], one entry
    per call, oldest first. *)
Record EmulatedWorld : Type := mkWorld {
  rooms : gmap string Room;
  labels : gmap string string;
  config : gmap string json;
  currentRoom : option Room;
  configFile : string;
  sampleConfigFile : string;
  paged : list (list string)
}.

Definition with_paged (p : list (list string)) (w : EmulatedWorld) :=
  mkWorld (rooms w) (labels w) (config w) (currentRoom w)
          (configFile w) (sampleConfigFile w) p.

Definition with_config (c : gmap string json) (w : EmulatedWorld) :=
  mkWorld (rooms w) (labels w) c (currentRoom w)
          (configFile w) (sampleConfigFile w) (paged w).

Definition with_currentRoom (r : option Room) (w : EmulatedWorld) :=
  mkWorld (rooms w) (labels w) (config w) r
          (configFile w) (sampleConfigFile w) (paged w).

(* --------------------------------------------------------------------- *)
(** ** Methods run in a state-and-exception monad *)
(* --------------------------------------------------------------------- *)

Inductive exn : Type :=
  AttributeError | IndexError | KeyError | TypeError | ValueError.

(** A method either returns a value or raises; the world it leaves behind
    is kept in both cases (output printed before a raise stays printed). *)
Definition M (A : Type) : Type := EmulatedWorld -> (exn + A) * EmulatedWorld.

#[global] Instance M_ret : MRet M := fun A (a : A) w => (inr a, w).

#[global] Instance M_bind : MBind M := fun A B (k : A -> M B) (m : M A) w =>
  match m w with
  | (inr a, w') => k a w'
  | (inl e, w') => (inl e, w')
  end.

Definition raise {A : Type} (e : exn) : M A := fun w => (inl e, w).
Definition get_world : M EmulatedWorld := fun w => (inr w, w).
Definition modify (f : EmulatedWorld -> EmulatedWorld) : M unit :=
  fun w => (inr tt, f w).

(** The lines of [text] that are not blank: what [output] passes on. *)
Definition output_lines (text : string) : list string :=
  List.filter (fun line => PyStr.nonempty (PyStr.strip line))
              (PyStr.splitlines text).

(** [EmulatedWorld.output] *)
Definition output (text : string) : M unit :=
  modify (fun w => with_paged (paged w ++ [output_lines text]) w).

(** [self.config.get(key, default)] *)
Definition config_get (w : EmulatedWorld) (key : string) (default : json) : json :=
  match config w !! key with
  | Some v => v
  | None => default
  end.

(** [self.currentRoom], an [AttributeError] on its fields while unset. *)
Definition current : M Room := fun w =>
  match currentRoom w with
  | Some r => (inr r, w)
  | None => (inl AttributeError, w)
  end.

Definition when (b : bool) (m : M unit) : M unit := if b then m else mret tt.

(* --------------------------------------------------------------------- *)
(** ** The files that loadConfig reads *)
(* --------------------------------------------------------------------- *)

(** What [json.load] hands back to [getConfig] for a file that holds
    JSON: a dictionary for an object, and otherwise [None], a boolean, a
    number or a string.  A top-level array, which [dict.update] reads as a
    sequence of key/value pairs of any hashable key, is outside the
    model. *)
Inductive loaded : Type :=
| Dict (members : gmap string json)
| Null
| Boolean (b : bool)
| Integer (n : Z)
| Float (f : spec_float)
| Text (s : string).

(** What the operating system and [json.load] answer for one path in
    [getConfig]. *)
Inductive file_state : Type :=
| NoSuchFile
| IsDirectory
| OpenRaisesIOError (strerror filename : string)
| LoadRaisesValueError
| Loads (v : loaded).

(** The order of [sorted] on strings: code point by code point. *)
Definition str_le (s1 s2 : string) : Prop := String.leb s1 s2 = true.

#[global] Instance str_le_dec (s1 s2 : string) : Decision (str_le s1 s2).
Proof. unfold str_le. apply _. Defined.

(** [str(n)] for a length. *)
Definition decimal (n : nat) : string :=
  NilEmpty.string_of_uint (Nat.to_uint n).

(* --------------------------------------------------------------------- *)
(** ** EmulatedWorld *)
(* --------------------------------------------------------------------- *)

Section Emulation.

(** [constants.DIRECTIONS] is imported, not defined, by this module: the
    methods are stated for any enumeration of direction names. *)
Variable DIRECTIONS : list string.

(** Modelled from the spec: [World.sortExits] (mapper/world.py is not
    part of the sources), the canonical-order enumeration of a room's
    exits: the exits in the order of the direction enumeration, followed
    by any exit whose key is not a direction. *)
Definition sortExits (exitsDict : gmap string Exit) : list (string * Exit) :=
  omap (fun d => (fun e => (d, e)) <$> exitsDict !! d) DIRECTIONS
  ++ List.filter (fun p => negb (PyStr.mem (fst p) DIRECTIONS))
                 (map_to_list exitsDict).

(** [exitObj.door or "door" in exitObj.exitFlags] *)
Definition has_door (exitObj : Exit) : bool :=
  PyStr.nonempty (door exitObj) || PyStr.mem "door" (exitFlags exitObj).

(** [exitObj.door if exitObj.door else "exit"] *)
Definition door_name (exitObj : Exit) : string :=
  if PyStr.nonempty (door exitObj) then door exitObj else "exit".

(** One turn of the loop of [look] over the sorted exits; the state of
    the loop is [(doorList, exitList)]. *)
Definition look_step (known : gmap string Room)
    (lists : list string * list string) (item : string * Exit)
  : list string * list string :=
  let '(doorList, exitList) := lists in
  let '(direction, exitObj) := item in
  let '(doorList, direction) :=
    if has_door exitObj then
      (doorList ++ [direction +:+ ": " +:+ door_name exitObj],
       if negb (PyStr.mem "hidden" (doorFlags exitObj))
       then "(" +:+ direction +:+ ")"
       else "[" +:+ direction +:+ "]")
    else (doorList, direction) in
  let direction :=
    if to exitObj =? "death" then "!!" +:+ direction +:+ "!!"
    else match known !! to exitObj with
         | None => "??" +:+ direction +:+ "??"
         | Some dest =>
             if to exitObj =? "undefined" then "??" +:+ direction +:+ "??"
             else if terrain dest =? "road" then "=" +:+ direction +:+ "="
             else if PyStr.mem "road" (exitFlags exitObj)
                  then "-" +:+ direction +:+ "-"
                  else direction
         end in
  (doorList, exitList ++ [direction]).

(** [EmulatedWorld.look] *)
Definition look : M unit :=
  room ← current;
  w ← get_world;
  output (name room);;
  when (negb (truthy (config_get w "brief" (JBool true))))
       (output (PyStr.join " "
          (List.map PyStr.strip
             (List.filter (fun line => PyStr.nonempty (PyStr.strip line))
                          (PyStr.splitlines (desc room))))));;
  output (dynamicDesc room);;
  let '(doorList, exitList) :=
    fold_left (look_step (rooms w)) (sortExits (exits room)) ([], []) in
  when (negb (bool_decide (doorList = [])))
       (output "Doors:";;
        output (PyStr.join ("," +:+ String "010" "") doorList));;
  let exitList :=
    if bool_decide (exitList = []) then exitList ++ ["None!"] else exitList in
  output ("Exits: " +:+ PyStr.join ", " exitList);;
  when (PyStr.nonempty (note room)) (output ("Note: " +:+ note room));;
  when (truthy (config_get w "show_vnum" (JBool true)))
       (output ("Vnum: " +:+ vnum room)).

(** The last part of a line of [longExits]: what lies behind the exit. *)
Definition destination_words (known : gmap string Room) (exitObj : Exit)
  : string :=
  match (if PyStr.isdigit (to exitObj) then known !! to exitObj else None) with
  | Some dest => name dest +:+ ", " +:+ terrain dest
  | None => if to exitObj =? "death" then "death" else "undefined"
  end.

(** The line that [longExits] prints for one exit. *)
Definition long_exit_line (known : gmap string Room)
    (direction : string) (exitObj : Exit) : string :=
  let exitLine := [PyStr.capitalize direction +:+ ":"] in
  let exitLine :=
    if has_door exitObj then
      exitLine ++ [(if negb (PyStr.mem "hidden" (doorFlags exitObj))
                    then "visible" else "hidden")
                   +:+ " (" +:+ door_name exitObj +:+ "),"]
    else exitLine in
  let exitLine := exitLine ++ [destination_words known exitObj] in
  PyStr.join " " exitLine.

(** [EmulatedWorld.longExits] *)
Definition longExits : M unit :=
  output "Exits:";;
  room ← current;
  w ← get_world;
  if bool_decide (exits room = ∅) then output "None!"
  else
    fold_left (fun (m : M unit) '(direction, exitObj) =>
                 m;; output (long_exit_line (rooms w) direction exitObj))
              (sortExits (exits room)) (mret tt).

(** The second half of [move], from [if vnum == "undefined"] on. *)
Definition arrive (vnum : string) : M unit :=
  w ← get_world;
  if vnum =? "undefined" then output "Undefined room in that direction!"
  else if vnum =? "death" then output "Deathtrap in that direction!"
  else match rooms w !! vnum with
       | None =>
           output ("Error: no rooms in the database with vnum (" +:+ vnum +:+ ").")
       | Some room =>
           modify (with_currentRoom (Some room));;
           modify (fun w => with_config (<["last_vnum" := JStr vnum]> (config w)) w);;
           look
       end.

(** [EmulatedWorld.move] *)
Definition move (text : string) : M unit :=
  w ← get_world;
  if PyStr.mem text DIRECTIONS then
    room ← current;
    match exits room !! text with
    | None => output "Alas, you cannot go that way!"
    | Some exitObj => arrive (to exitObj)
    end
  else match labels w !! text with
       | Some vnum => arrive vnum
       | None =>
           if PyStr.isdigit text then arrive text
           else output ("Error: " +:+ text +:+ " isn't a direction, label, or vnum.")
       end.

(** [EmulatedWorld.toggleSetting] *)
Definition toggleSetting (setting : string) : M json :=
  w ← get_world;
  let value := JBool (eq_False (config_get w setting (JBool true))) in
  modify (with_config (<[setting := value]> (config w)));;
  w ← get_world;
  match config w !! setting with
  | Some v => mret v
  | None => raise KeyError
  end.

(** [self.config.update(other)] *)
Definition config_update (other : loaded) : M unit :=
  match other with
  | Dict members => modify (fun w => with_config (members ∪ config w) w)
  | Text EmptyString => mret tt
  | Text _ => raise ValueError
  | Null | Boolean _ | Integer _ | Float _ => raise TypeError
  end.

(** The local function [getConfig] of [loadConfig]; [fs] tells what is
    found at each path. *)
Definition getConfig (fs : string -> file_state) (fileName : string) : M loaded :=
  match fs fileName with
  | NoSuchFile => mret (Dict ∅)
  | IsDirectory =>
      output ("Error: '" +:+ fileName +:+ "' is a directory, not a file.");;
      mret (Dict ∅)
  | OpenRaisesIOError strerror filename =>
      output (strerror +:+ ": '" +:+ filename +:+ "'");;
      mret (Dict ∅)
  | LoadRaisesValueError =>
      output ("Corrupted configuration file: " +:+ fileName);;
      mret (Dict ∅)
  | Loads v => mret v
  end.

(** [EmulatedWorld.loadConfig] *)
Definition loadConfig (fs : string -> file_state) : M unit :=
  w ← get_world;
  sample ← getConfig fs (sampleConfigFile w);
  config_update sample;;
  user ← getConfig fs (configFile w);
  config_update user.

(** [sorted(self.rooms)[0]] *)
Definition first_sorted (known : gmap string Room) : M string :=
  match merge_sort str_le (map_to_list known).*1 with
  | [] => raise IndexError
  | v :: _ => mret v
  end.

(** [EmulatedWorld.__init__], after [World.__init__] has loaded the
    rooms and labels of the world it starts from. *)
Definition init (fs : string -> file_state) : M unit :=
  output "Welcome to Mume Map Emulation!";;
  output "Loading the world database.";;
  w ← get_world;
  output ("Loaded " +:+ decimal (size (rooms w)) +:+ " rooms.");;
  modify (with_config ∅);;
  loadConfig fs;;
  w ← get_world;
  lastVnum ← match config_get w "last_vnum" (JStr "0") with
             | JStr s =>
                 if bool_decide (is_Some (rooms w !! s)) then mret s
                 else first_sorted (rooms w)
             | JList _ | JObj _ => raise TypeError
             | JNull | JBool _ | JInt _ | JFloat _ => first_sorted (rooms w)
             end;
  move lastVnum.

Fixpoint take_while (p : ascii -> bool) (s : string) : string :=
  match s with
  | String c s' => if p c then String c (take_while p s') else EmptyString
  | EmptyString => EmptyString
  end.

Fixpoint drop_while (p : ascii -> bool) (s : string) : string :=
  match s with
  | String c s' => if p c then drop_while p s' else s
  | EmptyString => EmptyString
  end.

(** The groups [command] and [arguments] of the regular expression of
    [parseInput], [None] when it does not match. *)
Definition match_input (userInput : string) : option (string * option string) :=
  let command := take_while (fun c => negb (PyStr.isspace c)) userInput in
  let rest := drop_while (fun c => negb (PyStr.isspace c)) userInput in
  match command, rest with
  | EmptyString, _ => None
  | _, EmptyString => Some (command, None)
  | _, _ =>
      Some (command,
            Some (take_while (fun c => negb (PyStr.code c =? 10)%N)
                             (drop_while PyStr.isspace rest)))
  end.

(** The commands that [parseInput] hands to methods of [World]. *)
Definition world_commands : list string :=
  ["path"; "rlabel"; "rinfo";
   "fdoor"; "fname"; "fnote"; "rnote"; "ralign"; "rlight"; "rportable";
   "rridable"; "ravoid"; "rterrain"; "rx"; "ry"; "rz"; "rmobflags";
   "rloadflags"; "exitflags"; "doorflags"; "secret"; "rlink"; "rdelete";
   "savemap"].

(** The path finder, the room and label editors and the map saver of
    [World], which are not part of this module. *)
Variable world_command : string -> option string -> M unit.

Definition report (what : string) (status : json) : M unit :=
  output (what +:+ " " +:+ (if truthy status then "enabled" else "disabled") +:+ ".").

(** [EmulatedWorld.parseInput] *)
Definition parseInput (userInput : string) : M unit :=
  match match_input userInput with
  | None => raise AttributeError
  | Some (command, arguments) =>
      let direction :=
        PyStr.join "" (List.filter (fun dir => PyStr.startswith dir command)
                                   DIRECTIONS) in
      if PyStr.nonempty direction then move direction
      else if PyStr.startswith "look" command then look
      else if PyStr.startswith "exits" command then longExits
      else if command =? "vnum" then
        status ← toggleSetting "show_vnum"; report "Show room vnum" status
      else if command =? "brief" then
        status ← toggleSetting "brief"; report "Brief mode" status
      else if command =? "terrain" then
        status ← toggleSetting "use_terrain_symbols";
        report "Terrain symbols in prompt" status
      else if PyStr.mem command world_commands then
        world_command command arguments
      else
        w ← get_world;
        if PyStr.isdigit command || bool_decide (is_Some (labels w !! command))
        then move command
        else output "Arglebargle, glop-glyf!?!"
  end.

End Emulation.

(* --------------------------------------------------------------------- *)
(** ** The direction enumeration and sample worlds *)
(* --------------------------------------------------------------------- *)

(** Modelled from the spec: [constants.DIRECTIONS] (mapper/constants.py is
    not part of the sources), the fixed enumeration of directions in its
    canonical order. *)
Definition compass : list string :=
  ["north"; "south"; "east"; "west"; "up"; "down"].

(** [World] commands left uninterpreted: they change nothing here. *)
Definition no_world_command (command : string) (arguments : option string)
  : M unit := mret tt.

Module Sample.

Definition plain (v n t : string) (x : gmap string Exit) : Room :=
  mkRoom v n "" "" t "" x.

Definition exit_to (v : string) : Exit := mkExit v "" [] [].

(** Room 1 has no exits. *)
Definition room1 : Room := plain "1" "A cell" "indoors" ∅.

(** Room 3 is a road. *)
Definition room3 : Room :=
  plain "3" "The Great Road" "road" {[ "south" := exit_to "2" ]}.

(** Room 2 has a visible, unnamed door north to room 3. *)
Definition room2 : Room :=
  plain "2" "A gate house" "city"
        {[ "north" := mkExit "3" "" ["door"] [] ]}.

(** Room 5: north is a death trap, east is unmapped, west leads to a
    room that is not in the database, south is a hidden named door. *)
Definition room5 : Room :=
  plain "5" "A ledge" "mountains"
        (<[ "north" := exit_to "death" ]>
         (<[ "east" := exit_to "undefined" ]>
          (<[ "west" := exit_to "77" ]>
           {[ "south" := mkExit "3" "trapdoor" ["door"; "road"] ["hidden"] ]}))).

Definition graph : gmap string Room :=
  <[ "1" := room1 ]> (<[ "2" := room2 ]> (<[ "3" := room3 ]> {[ "5" := room5 ]})).

Definition world (r : Room) (c : gmap string json) : EmulatedWorld :=
  mkWorld graph ∅ c (Some r) "data/emulation_config.json"
          "data/emulation_config.json.sample" [].

End Sample.

(* --------------------------------------------------------------------- *)
(** ** Statements about the output *)
(* --------------------------------------------------------------------- *)

(** [prints m w pages]: from [w], [m] returns normally and changes nothing
    but the output, to which it adds [pages]. *)
Definition prints (m : M unit) (w : EmulatedWorld) (pages : list (list string))
  : Prop :=
  m w = (inr tt, with_paged (paged w ++ pages) w).

(* --------------------------------------------------------------------- *)
(** ** Statements about the room render *)
(* --------------------------------------------------------------------- *)

(** The exit symbols as the specification words them: the door wrapping
    first, then at most one destination marker around it. *)
Module SpecExits.

Inductive marker : Type := Fatal | Unknown | Road | Trail | Bare.

Definition door_wrap (direction : string) (e : Exit) : string :=
  if has_door e then
    if PyStr.mem "hidden" (doorFlags e)
    then "[" +:+ direction +:+ "]"
    else "(" +:+ direction +:+ ")"
  else direction.

Definition door_entry (item : string * Exit) : option string :=
  if has_door item.2
  then Some (item.1 +:+ ": "
             +:+ (if PyStr.nonempty (door item.2) then door item.2 else "exit"))
  else None.

Definition marker_of (known : gmap string Room) (e : Exit) : marker :=
  if bool_decide (to e = "death") then Fatal
  else if bool_decide (to e = "undefined") then Unknown
  else match known !! to e with
       | None => Unknown
       | Some dest =>
           if bool_decide (terrain dest = "road") then Road
           else if PyStr.mem "road" (exitFlags e) then Trail
           else Bare
       end.

Definition mark (m : marker) (s : string) : string :=
  match m with
  | Fatal => "!!" +:+ s +:+ "!!"
  | Unknown => "??" +:+ s +:+ "??"
  | Road => "=" +:+ s +:+ "="
  | Trail => "-" +:+ s +:+ "-"
  | Bare => s
  end.

Definition symbol (known : gmap string Room) (item : string * Exit) : string :=
  mark (marker_of known item.2) (door_wrap item.1 item.2).

End SpecExits.

(** The parts of the output of [look]. *)
Definition look_header (w : EmulatedWorld) (room : Room) : list (list string) :=
  [output_lines (name room)]
  ++ (if negb (truthy (config_get w "brief" (JBool true)))
      then [output_lines
              (PyStr.join " "
                 (List.map PyStr.strip
                    (List.filter (fun line => PyStr.nonempty (PyStr.strip line))
                                 (PyStr.splitlines (desc room)))))]
      else [])
  ++ [output_lines (dynamicDesc room)].

Definition look_doors (doorList : list string) : list (list string) :=
  match doorList with
  | [] => []
  | _ => [["Doors:"]; output_lines (PyStr.join ("," +:+ String "010" "") doorList)]
  end.

Definition look_exits (exitList : list string) : list string :=
  output_lines ("Exits: " +:+ PyStr.join ", "
                  (match exitList with [] => ["None!"] | _ => exitList end)).

Definition look_footer (w : EmulatedWorld) (room : Room) : list (list string) :=
  (if PyStr.nonempty (note room) then [output_lines ("Note: " +:+ note room)] else [])
  ++ (if truthy (config_get w "show_vnum" (JBool true))
      then [output_lines ("Vnum: " +:+ vnum room)] else []).

(** The rules of the exits line, case by case. *)
Definition door_rule (d : string) (e : Exit) (wrapped : string)
    (entry : option string) : Prop :=
  let doored := door e <> "" \/ In "door" (exitFlags e) in
  (~ doored -> wrapped = d /\ entry = None)
  /\ (doored -> ~ In "hidden" (doorFlags e) -> wrapped = "(" +:+ d +:+ ")")
  /\ (doored -> In "hidden" (doorFlags e) -> wrapped = "[" +:+ d +:+ "]")
  /\ (doored -> door e <> "" -> entry = Some (d +:+ ": " +:+ door e))
  /\ (doored -> door e = "" -> entry = Some (d +:+ ": exit")).

Definition marker_rule (known : gmap string Room) (e : Exit)
    (wrapped symbol : string) : Prop :=
  (to e = "death" -> symbol = "!!" +:+ wrapped +:+ "!!")
  /\ (to e <> "death" -> to e = "undefined" \/ known !! to e = None ->
      symbol = "??" +:+ wrapped +:+ "??")
  /\ (forall dest,
        to e <> "death" -> to e <> "undefined" -> known !! to e = Some dest ->
        (terrain dest = "road" -> symbol = "=" +:+ wrapped +:+ "=")
        /\ (terrain dest <> "road" -> In "road" (exitFlags e) ->
            symbol = "-" +:+ wrapped +:+ "-")
        /\ (terrain dest <> "road" -> ~ In "road" (exitFlags e) ->
            symbol = wrapped)).

(** The claim of C5 on the [exits] command, as it is worded: all that the
    command prints is the one line "Exits: None!". *)
Definition exits_command_prints_one_line (w : EmulatedWorld) : Prop :=
  prints (parseInput compass no_world_command "exits") w [["Exits: None!"]].

(* --------------------------------------------------------------------- *)
(** ** Statements about movement *)
(* --------------------------------------------------------------------- *)

(** The resolution of a movement token to a destination, as the
    specification words it: a direction resolves to the destination of
    the current room's exit that way, a label to the labelled identifier,
    and a numeric token to itself. *)
Definition resolves_to (DIRECTIONS : list string) (w : EmulatedWorld)
    (token vnum : string) : Prop :=
  (In token DIRECTIONS
   /\ exists room exitObj,
        currentRoom w = Some room /\ exits room !! token = Some exitObj
        /\ to exitObj = vnum)
  \/ (~ In token DIRECTIONS /\ labels w !! token = Some vnum)
  \/ (~ In token DIRECTIONS /\ labels w !! token = None
      /\ PyStr.isdigit token = true /\ vnum = token).

(** The position of the session: the current room and [last_vnum]. *)
Definition same_position (w w' : EmulatedWorld) : Prop :=
  currentRoom w' = currentRoom w
  /\ config w' !! "last_vnum" = config w !! "last_vnum".

(* --------------------------------------------------------------------- *)
(** ** Statements about abbreviated directions *)
(* --------------------------------------------------------------------- *)

(** The directions that [command] abbreviates, in canonical order. *)
Definition matching (DIRECTIONS : list string) (command : string) : list string :=
  List.filter (fun dir => PyStr.startswith dir command) DIRECTIONS.


(* --------------------------------------------------------------------- *)
(** ** Statements about settings *)
(* --------------------------------------------------------------------- *)

(** The claim of C7 on two toggles, as it is worded: the value stored
    under the setting is again the one stored before the first toggle. *)
Definition toggle_twice_restores (w : EmulatedWorld) (setting : string) : Prop :=
  config (toggleSetting setting (toggleSetting setting w).2).2 !! setting
  = config w !! setting.

(** The claim of C10 on the new value, as it is worded. *)
Definition true_only_after_False (w : EmulatedWorld) (setting : string) : Prop :=
  forall previous,
    config w !! setting = Some previous ->
    exists b : bool,
      config (toggleSetting setting w).2 !! setting = Some (JBool b)
      /\ (b = true <-> previous = JBool false).

(* --------------------------------------------------------------------- *)
(** ** Statements about loading the configuration *)
(* --------------------------------------------------------------------- *)

(** The layer that a file contributes when it is missing, a directory,
    unreadable, not JSON, or a JSON object. *)
Definition layer (state : file_state) : option (gmap string json) :=
  match state with
  | NoSuchFile | IsDirectory | OpenRaisesIOError _ _ | LoadRaisesValueError =>
      Some ∅
  | Loads (Dict members) => Some members
  | Loads _ => None
  end.

(** The warning printed for a file, if any. *)
Definition warning (fileName : string) (state : file_state)
  : list (list string) :=
  match state with
  | NoSuchFile | Loads _ => []
  | IsDirectory =>
      [output_lines ("Error: '" +:+ fileName +:+ "' is a directory, not a file.")]
  | OpenRaisesIOError strerror filename =>
      [output_lines (strerror +:+ ": '" +:+ filename +:+ "'")]
  | LoadRaisesValueError =>
      [output_lines ("Corrupted configuration file: " +:+ fileName)]
  end.

(** The user file of the sample worlds holds the JSON text [null]; there
    is no sample file. *)
Definition null_user_file (path : string) : file_state :=
  if path =? "data/emulation_config.json" then Loads Null else NoSuchFile.

(* --------------------------------------------------------------------- *)
(** ** Statements about startup *)
(* --------------------------------------------------------------------- *)

(** An identifier of the graph that no other identifier precedes. *)
Definition smallest_identifier (known : gmap string Room) (v : string) : Prop :=
  is_Some (known !! v) /\ forall k, is_Some (known !! k) -> str_le v k.

(** The world in which [__init__] calls [loadConfig]: greeted, with an
    empty configuration. *)
Definition greeted (w : EmulatedWorld) : EmulatedWorld :=
  with_config ∅
    (with_paged
       (paged w ++ [["Welcome to Mume Map Emulation!"];
                    ["Loading the world database."];
                    output_lines ("Loaded " +:+ decimal (size (rooms w))
                                  +:+ " rooms.")]) w).

(** The identifier that the specification starts the session at: the
    persisted [last_vnum] when it is in the room graph, and else the
    smallest identifier. *)
Definition start_identifier (settings : gmap string json)
    (known : gmap string Room) (v : string) : Prop :=
  match settings !! "last_vnum" with
  | Some (JStr s) =>
      if bool_decide (is_Some (known !! s)) then v = s
      else smallest_identifier known v
  | _ => smallest_identifier known v
  end.

(** [last_vnum] can be looked up in a dictionary: it is not a list or an
    object. *)
Definition hashable_last_vnum (settings : gmap string json) : Prop :=
  match settings !! "last_vnum" with
  | Some (JList _) | Some (JObj _) => False
  | _ => True
  end.

(** The claim of C6 as it is worded. *)
Definition starts_where_claimed (DIRECTIONS : list string)
    (fs : string -> file_state) (w : EmulatedWorld) : Prop :=
  forall v,
    start_identifier (config (loadConfig fs (greeted w)).2) (rooms w) v ->
    currentRoom (init DIRECTIONS fs w).2 = rooms w !! v.

Module Shadowed.

(** The user file persists room 1 as the last room; there is no sample
    file. *)
Definition files (path : string) : file_state :=
  if path =? "data/emulation_config.json"
  then Loads (Dict {[ "last_vnum" := JStr "1" ]})
  else NoSuchFile.

(** The sample graph, with the label "1" given to room 2. *)
Definition world : EmulatedWorld :=
  mkWorld Sample.graph {[ "1" := "2" ]} ∅ None "data/emulation_config.json"
          "data/emulation_config.json.sample" [].

End Shadowed.

Module Persisted.

(** The user file persists room 3 as the last room; the sample file is a
    directory. *)
Definition files (path : string) : file_state :=
  if path =? "data/emulation_config.json"
  then Loads (Dict {[ "last_vnum" := JStr "3" ]})
  else IsDirectory.

Definition world : EmulatedWorld :=
  mkWorld Sample.graph ∅ ∅ None "data/emulation_config.json"
          "data/emulation_config.json.sample" [].

End Persisted.

(* --------------------------------------------------------------------- *)
(** ** Emulator: the interpreter loop *)
(* --------------------------------------------------------------------- *)

(** [str.lower] on one character: A-Z and the capital letters of Latin-1
    (all of 192..222 but the multiplication sign) move up by 32. *)
Definition to_lower (c : ascii) : ascii :=
  let n := PyStr.code c in
  if ((65 <=? n) && (n <=? 90)
      || (192 <=? n) && (n <=? 222) && negb (n =? 215))%N
  then ascii_of_N (n + 32) else c.

(** [s.lower()] *)
Definition lower (s : string) : string := PyStr.map_chars to_lower s.

(** The state of an [Emulator] thread: its world, the prompts handed to
    [input], oldest first, the dictionary that [saveConfig] has dumped and
    the path of the file it went to, and the number of stop signals put
    on the queue of the user interface. *)
Record Emulator : Type := mkEmulator {
  wld : EmulatedWorld;
  prompted : list string;
  written : option (string * gmap string json);
  gui_queue : nat
}.

Definition with_wld (w : EmulatedWorld) (e : Emulator) :=
  mkEmulator w (prompted e) (written e) (gui_queue e).

Definition with_prompted (p : list string) (e : Emulator) :=
  mkEmulator (wld e) p (written e) (gui_queue e).

Definition with_written (f : option (string * gmap string json)) (e : Emulator) :=
  mkEmulator (wld e) (prompted e) f (gui_queue e).

Definition with_gui_queue (n : nat) (e : Emulator) :=
  mkEmulator (wld e) (prompted e) (written e) n.

(** What ends the thread early: an exception of a method of the world,
    the end of the input, or a configuration file that cannot be opened
    for writing. *)
Inductive raised : Type := Raised (e : exn) | EOFError | IOError.

Definition R (A : Type) : Type := Emulator -> (raised + A) * Emulator.

#[global] Instance R_ret : MRet R := fun A (a : A) e => (inr a, e).

#[global] Instance R_bind : MBind R := fun A B (k : A -> R B) (m : R A) e =>
  match m e with
  | (inr a, e') => k a e'
  | (inl x, e') => (inl x, e')
  end.

(** A method of the world, called from the thread. *)
Definition lift {A : Type} (m : M A) : R A := fun e =>
  match m (wld e) with
  | (inr a, w) => (inr a, with_wld w e)
  | (inl x, w) => (inl (Raised x), with_wld w e)
  end.

(** [EmulatedWorld.saveConfig]; [writable] tells whether the file at a
    path can be opened for writing.  What is recorded is the dictionary
    handed to [json.dump]. *)
Definition saveConfig (writable : string -> bool) : R unit := fun e =>
  if writable (configFile (wld e))
  then (inr tt, with_written (Some (configFile (wld e), config (wld e))) e)
  else (inl IOError, e).

Section Loop.

Variable DIRECTIONS : list string.

(** [constants.TERRAIN_SYMBOLS] is imported, not defined, by this
    module: its items, symbol first, in the order of iteration. *)
Variable TERRAIN_SYMBOLS : list (string * string).

Variable world_command : string -> option string -> M unit.

(** The [for] loop of [run] over the terrain symbols. *)
Fixpoint symbol_prompt (items : list (string * string)) : M string :=
  match items with
  | [] => mret "> "
  | (symbol, t) :: items =>
      room ← current;
      if t =? terrain room then mret (symbol +:+ "> ")
      else symbol_prompt items
  end.

(** The prompt that [run] builds before it reads a line. *)
Definition prompt : M string :=
  w ← get_world;
  if negb (truthy (config_get w "use_terrain_symbols" JNull)) then
    room ← current; mret (terrain room +:+ "> ")
  else symbol_prompt TERRAIN_SYMBOLS.

(** The [while] loop of [Emulator.run] over the lines that [input] will
    return; at [break] it returns the lines not read. *)
Fixpoint run_loop (inputs : list string) : R (list string) := fun e =>
  match lift prompt e with
  | (inl x, e) => (inl x, e)
  | (inr p, e) =>
      let e := with_prompted (prompted e ++ [p]) e in
      match inputs with
      | [] => (inl EOFError, e)
      | raw :: inputs =>
          let userInput := lower (PyStr.strip raw) in
          if negb (PyStr.nonempty userInput) then run_loop inputs e
          else if PyStr.startswith "quit" userInput then (inr inputs, e)
          else match lift (parseInput DIRECTIONS world_command userInput) e with
               | (inl x, e) => (inl x, e)
               | (inr _, e) => run_loop inputs e
               end
      end
  end.

(** [Emulator.run] *)
Definition run (writable : string -> bool) (use_gui : bool)
    (inputs : list string) : R (list string) :=
  unread ← run_loop inputs;
  saveConfig writable;;
  lift (output "Good bye.");;
  (if use_gui
   then (fun e => (inr tt, with_gui_queue (S (gui_queue e)) e)) : R unit
   else mret tt);;
  mret unread.

(** [Emulator.__init__]: the thread starts with the world that
    [EmulatedWorld.__init__] leaves. *)
Definition Emulator_init (fs : string -> file_state) (w : EmulatedWorld)
  : (raised + unit) * Emulator :=
  lift (init DIRECTIONS fs) (mkEmulator w [] None 0).

End Loop.

(* --------------------------------------------------------------------- *)
(** ** Further statements *)
(* --------------------------------------------------------------------- *)

Definition with_labels (l : gmap string string) (w : EmulatedWorld) :=
  mkWorld (rooms w) l (config w) (currentRoom w)
          (configFile w) (sampleConfigFile w) (paged w).

(** [last_vnum] names the current room. *)
Definition positioned (w : EmulatedWorld) : Prop :=
  exists v room,
    config w !! "last_vnum" = Some (JStr v)
    /\ rooms w !! v = Some room
    /\ currentRoom w = Some room.

(** The world after an accepted move to the room [room] stored under [v]. *)
Definition moved_to (v : string) (room : Room) (w : EmulatedWorld) : EmulatedWorld :=
  with_config (<["last_vnum" := JStr v]> (config w))
              (with_currentRoom (Some room) w).

(** A file that [loadConfig] gets past: everything but JSON that is
    neither an object nor the empty string. *)
Definition acceptable (state : file_state) : Prop :=
  match state with
  | Loads (Dict _) | Loads (Text EmptyString) => True
  | Loads _ => False
  | _ => True
  end.

(** The commands of [parseInput] that toggle a setting: the command, the
    setting, and how the report begins. *)
Definition toggle_commands : list (string * string * string) :=
  [("vnum", "show_vnum", "Show room vnum");
   ("brief", "brief", "Brief mode");
   ("terrain", "use_terrain_symbols", "Terrain symbols in prompt")].

(** A string that does not begin with a digit. *)
Definition no_digit_first (s : string) : Prop :=
  match s with
  | String d _ => PyStr.isdigit_char d = false
  | EmptyString => True
  end.

(** A string without any character at which [splitlines] breaks. *)
Definition unbroken (s : string) : Prop :=
  PyStr.all_chars (fun c => negb (PyStr.islinebreak c)) s = true.

(** The static description as [look] hands it to [output]: the lines of
    [room.desc] that are not blank, stripped and joined by single
    spaces. *)
Definition collapsed_description (room : Room) : string :=
  PyStr.join " "
    (List.map PyStr.strip
       (List.filter (fun line => PyStr.nonempty (PyStr.strip line))
                    (PyStr.splitlines (desc room)))).

(** A string without white space. *)
Definition spaceless (s : string) : Prop :=
  PyStr.all_chars (fun c => negb (PyStr.isspace c)) s = true.

(* ===================================================================== *)
(** * Part II: the properties *)
(* ===================================================================== *)

(* --------------------------------------------------------------------- *)
(** ** The string primitives on examples *)
(* --------------------------------------------------------------------- *)

Example splitlines_crlf :
  PyStr.splitlines ("a" +:+ String "013" (String "010" "b") +:+ String "010" "")
  = ["a"; "b"].
Proof. reflexivity. Qed.

Example splitlines_blank :
  PyStr.splitlines (String "010" (String "010" "x")) = [""; ""; "x"].
Proof. reflexivity. Qed.

Example strip_both : PyStr.strip "  north " = "north".
Proof. reflexivity. Qed.

(* --------------------------------------------------------------------- *)
(** ** Running the monad *)
(* --------------------------------------------------------------------- *)

Lemma with_paged_id w : with_paged (paged w) w = w.
Proof. by destruct w. Qed.

Lemma prints_ret w : prints (mret tt) w [].
Proof. unfold prints. by rewrite app_nil_r, with_paged_id. Qed.

Lemma prints_output text w : prints (output text) w [output_lines text].
Proof. reflexivity. Qed.

Lemma prints_seq (m k : M unit) w p1 p2 :
  prints m w p1 ->
  prints k (with_paged (paged w ++ p1) w) p2 ->
  prints (m;; k) w (p1 ++ p2).
Proof.
  unfold prints. intros Hm Hk.
  unfold mbind, M_bind. rewrite Hm, Hk. simpl. by rewrite app_assoc.
Qed.

Lemma prints_when (b : bool) (m : M unit) w p :
  prints m w p -> prints (when b m) w (if b then p else []).
Proof. destruct b; simpl; [done | intros _; apply prints_ret]. Qed.

Lemma mem_In x xs : PyStr.mem x xs = true <-> In x xs.
Proof.
  unfold PyStr.mem. rewrite existsb_exists. split.
  - intros (y & Hy & Heq). apply String.eqb_eq in Heq. by subst.
  - intros Hin. exists x. split; [done | apply String.eqb_refl].
Qed.

Lemma mem_false x xs : PyStr.mem x xs = false <-> ~ In x xs.
Proof.
  rewrite <- mem_In. destruct (PyStr.mem x xs); split; done.
Qed.

(* --------------------------------------------------------------------- *)
(** ** The room render *)
(* --------------------------------------------------------------------- *)

Section Render.

Variable DIRECTIONS : list string.

Lemma eqb_bool_decide (a b : string) : (a =? b) = bool_decide (a = b).
Proof.
  destruct (String.eqb_spec a b) as [->|Hne].
  - by rewrite bool_decide_eq_true_2.
  - by rewrite bool_decide_eq_false_2.
Qed.

Lemma look_step_spec known doorList exitList item :
  look_step known (doorList, exitList) item
  = (doorList ++ from_option (fun d => [d]) [] (SpecExits.door_entry item),
     exitList ++ [SpecExits.symbol known item]).
Proof.
  destruct item as [direction e].
  unfold look_step, SpecExits.door_entry, SpecExits.symbol,
    SpecExits.marker_of, SpecExits.door_wrap, door_name. simpl.
  rewrite !eqb_bool_decide.
  destruct (has_door e); simpl.
  - destruct (PyStr.mem "hidden" (doorFlags e)); simpl;
      repeat case_bool_decide; simpl; try done;
      destruct (known !! to e) as [dest|]; simpl; try done;
      rewrite eqb_bool_decide; repeat case_bool_decide; try done;
      by destruct (PyStr.mem "road" (exitFlags e)).
  - rewrite app_nil_r.
    repeat case_bool_decide; simpl; try done;
      destruct (known !! to e) as [dest|]; simpl; try done;
      rewrite eqb_bool_decide; repeat case_bool_decide; try done;
      by destruct (PyStr.mem "road" (exitFlags e)).
Qed.

Lemma look_loop_spec known items doorList exitList :
  fold_left (look_step known) items (doorList, exitList)
  = (doorList ++ omap SpecExits.door_entry items,
     exitList ++ List.map (SpecExits.symbol known) items).
Proof.
  revert doorList exitList.
  induction items as [|item items IH]; intros doorList exitList;
    cbn [fold_left omap list_omap List.map].
  - by rewrite !app_nil_r.
  - rewrite look_step_spec, IH. f_equal.
    + rewrite <- app_assoc. f_equal.
      by destruct (SpecExits.door_entry item).
    + by rewrite <- app_assoc.
Qed.

(** What [look] prints, part by part. *)
Lemma look_prints w room :
  currentRoom w = Some room ->
  let items := sortExits DIRECTIONS (exits room) in
  prints (look DIRECTIONS) w
    (look_header w room
     ++ look_doors (omap SpecExits.door_entry items)
     ++ [look_exits (List.map (SpecExits.symbol (rooms w)) items)]
     ++ look_footer w room).
Proof.
  intros Hroom items. unfold prints, look.
  unfold mbind at 1, M_bind at 1, current. rewrite Hroom.
  unfold mbind at 1, M_bind at 1, get_world.
  rewrite look_loop_spec. simpl app. fold items.
  change (?m w = ?r) with (prints m w
    (look_header w room
     ++ look_doors (omap SpecExits.door_entry items)
     ++ [look_exits (List.map (SpecExits.symbol (rooms w)) items)]
     ++ look_footer w room)).
  unfold look_header. rewrite <- !app_assoc.
  apply prints_seq; [apply prints_output|].
  apply prints_seq; [apply prints_when, prints_output|].
  apply prints_seq; [apply prints_output|].
  apply prints_seq.
  { destruct (omap SpecExits.door_entry items) as [|d ds] eqn:Hd; simpl.
    - apply prints_ret.
    - apply (prints_seq _ _ _ [_] [_]); apply prints_output. }
  apply prints_seq.
  { destruct (List.map (SpecExits.symbol (rooms w)) items); simpl;
      apply prints_output. }
  unfold look_footer.
  apply prints_seq; apply prints_when, prints_output.
Qed.

End Render.

Lemma has_door_iff e :
  has_door e = true <-> door e <> "" \/ In "door" (exitFlags e).
Proof.
  unfold has_door. rewrite orb_true_iff, mem_In.
  destruct (door e); simpl; split; intros [H|H]; auto; try done.
Qed.

Lemma door_rule_holds d e :
  door_rule d e (SpecExits.door_wrap d e) (SpecExits.door_entry (d, e)).
Proof.
  unfold door_rule, SpecExits.door_wrap, SpecExits.door_entry. simpl.
  rewrite <- has_door_iff.
  destruct (has_door e); repeat split; try done.
  - intros _ Hh. apply mem_false in Hh. by rewrite Hh.
  - intros _ Hh. apply mem_In in Hh. by rewrite Hh.
  - intros _ Hd. by destruct (door e).
  - intros _ Hd. by rewrite Hd.
Qed.

Lemma marker_rule_holds known d e :
  marker_rule known e (SpecExits.door_wrap d e) (SpecExits.symbol known (d, e)).
Proof.
  unfold marker_rule, SpecExits.symbol, SpecExits.marker_of. simpl.
  repeat split.
  - intros ->. done.
  - intros Hd [Hu|Hn].
    + rewrite bool_decide_eq_false_2 by done.
      by rewrite bool_decide_eq_true_2.
    + rewrite bool_decide_eq_false_2 by done.
      case_bool_decide; [done | by rewrite Hn].
  - intros Hr. rewrite !bool_decide_eq_false_2 by done.
    rewrite H1. by rewrite bool_decide_eq_true_2.
  - intros Hr Hf. rewrite !bool_decide_eq_false_2 by done.
    rewrite H1. rewrite bool_decide_eq_false_2 by done.
    apply mem_In in Hf. by rewrite Hf.
  - intros Hr Hf. rewrite !bool_decide_eq_false_2 by done.
    rewrite H1. rewrite bool_decide_eq_false_2 by done.
    apply mem_false in Hf. by rewrite Hf.
Qed.

(** C2: on the exits line of the room render every exit, in canonical
    order, is the direction wrapped first for its door (parentheses for a
    visible door, brackets for a hidden one, with a doors entry
    "direction: doorname", "exit" for a nameless door) and then by at most
    one destination marker, chosen in the order death, undefined or
    unknown room, road terrain, road flag.  A visible unnamed door to a
    road room renders as =(north)= with the entry north: exit, and a
    hidden door to a road room as the bracketed direction inside =. *)
Theorem C2_exit_symbol_precedence (DIRECTIONS : list string) w room :
  currentRoom w = Some room ->
  let items := sortExits DIRECTIONS (exits room) in
  prints (look DIRECTIONS) w
    (look_header w room
     ++ look_doors (omap SpecExits.door_entry items)
     ++ [look_exits (List.map (SpecExits.symbol (rooms w)) items)]
     ++ look_footer w room)
  /\ (forall d e,
        door_rule d e (SpecExits.door_wrap d e) (SpecExits.door_entry (d, e))
        /\ marker_rule (rooms w) e (SpecExits.door_wrap d e)
                       (SpecExits.symbol (rooms w) (d, e)))
  /\ (forall v dest flags,
        v <> "death" -> v <> "undefined" ->
        rooms w !! v = Some dest -> terrain dest = "road" ->
        SpecExits.symbol (rooms w) ("north", mkExit v "" ["door"] []) = "=(north)="
        /\ SpecExits.door_entry ("north", mkExit v "" ["door"] [])
           = Some "north: exit"
        /\ forall d name,
            SpecExits.symbol (rooms w) (d, mkExit v name ("door" :: flags) ["hidden"])
            = "=" +:+ ("[" +:+ d +:+ "]") +:+ "=").
Proof.
  intros Hroom items. split; [by apply look_prints|]. split.
  - intros d e. split; [apply door_rule_holds | apply marker_rule_holds].
  - intros v dest flags Hd Hu Hv Hroad.
    unfold SpecExits.symbol, SpecExits.marker_of, SpecExits.door_entry. simpl.
    rewrite !bool_decide_eq_false_2 by done. rewrite Hv.
    rewrite bool_decide_eq_true_2 by done.
    repeat split. intros d nm. unfold SpecExits.door_wrap, has_door. simpl.
    by rewrite orb_true_r.
Qed.

Lemma C2_exit_symbol_precedence_witness :
  currentRoom (Sample.world Sample.room2 ∅) = Some Sample.room2
  /\ prints (look compass) (Sample.world Sample.room2 ∅)
       [["A gate house"]; []; ["Doors:"]; ["north: exit"];
        ["Exits: =(north)="]; ["Vnum: 2"]].
Proof.
  split; [reflexivity|].
  exact (proj1 (C2_exit_symbol_precedence compass (Sample.world Sample.room2 ∅)
                  Sample.room2 eq_refl)).
Defined.

(* --------------------------------------------------------------------- *)
(** ** The long exits listing *)
(* --------------------------------------------------------------------- *)

Section LongExits.

Variable DIRECTIONS : list string.

Lemma sortExits_empty : sortExits DIRECTIONS ∅ = [].
Proof.
  unfold sortExits. rewrite map_to_list_empty. simpl. rewrite app_nil_r.
  induction DIRECTIONS as [|d ds IH]; [done|].
  simpl. by rewrite lookup_empty.
Qed.

Lemma long_loop_prints known items (m : M unit) w pages :
  prints m w pages ->
  prints (fold_left (fun (m : M unit) '(direction, exitObj) =>
                       m;; output (long_exit_line known direction exitObj))
                    items m) w
         (pages ++ List.map (fun item => output_lines
                               (long_exit_line known item.1 item.2)) items).
Proof.
  revert m pages. induction items as [|[d e] items IH]; intros m pages Hm.
  - simpl. by rewrite app_nil_r.
  - cbn [fold_left List.map].
    replace (pages ++ output_lines (long_exit_line known (d, e).1 (d, e).2)
               :: List.map (fun item => output_lines
                              (long_exit_line known item.1 item.2)) items)
      with ((pages ++ [output_lines (long_exit_line known d e)])
              ++ List.map (fun item => output_lines
                             (long_exit_line known item.1 item.2)) items)
      by (by rewrite <- app_assoc).
    apply IH. apply prints_seq; [done | apply prints_output].
Qed.

(** What [longExits] prints. *)
Lemma longExits_prints w room :
  currentRoom w = Some room ->
  prints (longExits DIRECTIONS) w
    (["Exits:"]
     :: (if bool_decide (exits room = ∅) then [["None!"]]
         else List.map (fun item => output_lines
                          (long_exit_line (rooms w) item.1 item.2))
                       (sortExits DIRECTIONS (exits room)))).
Proof.
  intros Hroom. unfold longExits.
  apply (prints_seq _ _ _ [_]); [apply prints_output|].
  unfold prints, mbind at 1, M_bind at 1, current. simpl. rewrite Hroom.
  unfold mbind at 1, M_bind at 1, get_world. simpl.
  case_bool_decide as Hx.
  - reflexivity.
  - exact (long_loop_prints (rooms w) (sortExits DIRECTIONS (exits room))
             (mret tt) (with_paged (paged w ++ [["Exits:"]]) w) []
             (prints_ret _)).
Qed.

End LongExits.

(** C5, the claim as worded fails: in room 1, which has no exits, the
    [exits] command prints "Exits:" and "None!" as two outputs. *)
Lemma C5_exits_command_counterexample :
  let w := Sample.world Sample.room1 ∅ in
  exits Sample.room1 = ∅
  /\ prints (parseInput compass no_world_command "exits") w
            [["Exits:"]; ["None!"]]
  /\ ~ exits_command_prints_one_line w.
Proof.
  repeat split. intros H. unfold exits_command_prints_one_line, prints in H.
  vm_compute in H. discriminate H.
Qed.

(** C5 (amended): for a current room without exits, the room render prints
    the exits line "Exits: None!" between the descriptions and the note,
    with no doors line; [longExits], which the [exits] command runs,
    prints "Exits:" and then "None!", with no doors line. *)
Theorem C5_no_exits (DIRECTIONS : list string) w room :
  currentRoom w = Some room ->
  exits room = ∅ ->
  prints (look DIRECTIONS) w
         (look_header w room ++ [["Exits: None!"]] ++ look_footer w room)
  /\ prints (longExits DIRECTIONS) w [["Exits:"]; ["None!"]]
  /\ (forall world_command,
        parseInput compass world_command "exits" = longExits compass).
Proof.
  intros Hroom Hx. split; [|split].
  - pose proof (look_prints DIRECTIONS w room Hroom) as H.
    simpl in H. rewrite Hx, sortExits_empty in H. exact H.
  - pose proof (longExits_prints DIRECTIONS w room Hroom) as H.
    by rewrite bool_decide_eq_true_2 in H.
  - reflexivity.
Qed.

Lemma C5_no_exits_witness :
  let w := Sample.world Sample.room1 ∅ in
  prints (look compass) w [["A cell"]; []; ["Exits: None!"]; ["Vnum: 1"]]
  /\ prints (longExits compass) w [["Exits:"]; ["None!"]].
Proof.
  pose proof (C5_no_exits compass (Sample.world Sample.room1 ∅) Sample.room1
                eq_refl eq_refl) as (H1 & H2 & _).
  split; [exact H1 | exact H2].
Defined.

Lemma name_and_terrain_not_death a b : a +:+ ", " +:+ b <> "death".
Proof.
  intros H.
  do 5 (destruct a as [|? a]; simpl in H; [discriminate H|];
        injection H as _ H).
  destruct a; discriminate H.
Qed.

(** C9: in the long exits listing the destination of an exit is described
    by the destination room's name and terrain only when the destination
    string is numeric and in the room graph, by "death" only when it is
    the sentinel death, and by "undefined" in every other case, the
    sentinel undefined and numeric identifiers missing from the graph
    included.  The listing has one line for each exit, which ends with
    these words; the lines are as [long_exit_line] gives them when every
    exit key has its capital among the characters below 256. *)
Theorem C9_long_exits_destination (DIRECTIONS : list string) w room :
  currentRoom w = Some room ->
  exits room <> ∅ ->
  (map_Forall (fun d _ => PyStr.has_latin1_capital d = true) (exits room) ->
   prints (longExits DIRECTIONS) w
     (["Exits:"]
      :: List.map (fun item => output_lines (long_exit_line (rooms w) item.1 item.2))
                  (sortExits DIRECTIONS (exits room))))
  /\ forall d e,
       let words := destination_words (rooms w) e in
       (exists front, long_exit_line (rooms w) d e = PyStr.join " " (front ++ [words]))
       /\ (forall dest,
             PyStr.isdigit (to e) = true -> rooms w !! to e = Some dest ->
             words = name dest +:+ ", " +:+ terrain dest)
       /\ (to e = "death" <-> words = "death")
       /\ (to e <> "death" ->
           PyStr.isdigit (to e) = false \/ rooms w !! to e = None ->
           words = "undefined")
       /\ (to e = "undefined" -> words = "undefined").
Proof.
  intros Hroom Hx. split.
  - intros _. pose proof (longExits_prints DIRECTIONS w room Hroom) as H.
    by rewrite bool_decide_eq_false_2 in H.
  - intros d e words. subst words. unfold destination_words.
    split; [|split; [|split; [|split]]].
    + unfold long_exit_line. eexists. reflexivity.
    + intros dest Hd Hk. by rewrite Hd, Hk.
    + split.
      * intros ->. reflexivity.
      * destruct (PyStr.isdigit (to e)); [destruct (rooms w !! to e)|].
        -- intros H. by apply name_and_terrain_not_death in H.
        -- destruct (String.eqb_spec (to e) "death"); [done | discriminate].
        -- destruct (String.eqb_spec (to e) "death"); [done | discriminate].
    + intros Hd Hcase.
      assert ((to e =? "death") = false) as Hne by by apply String.eqb_neq.
      destruct Hcase as [Hn|Hk].
      * by rewrite Hn, Hne.
      * rewrite Hk. destruct (PyStr.isdigit (to e)); by rewrite Hne.
    + intros ->. reflexivity.
Qed.

Lemma C9_long_exits_destination_witness :
  prints (longExits compass) (Sample.world Sample.room5 ∅)
    [["Exits:"]; ["North: death"];
     ["South: hidden (trapdoor), The Great Road, road"];
     ["East: undefined"]; ["West: undefined"]].
Proof.
  refine (proj1 (C9_long_exits_destination compass
                   (Sample.world Sample.room5 ∅) Sample.room5 eq_refl _) _).
  - intros H. apply (f_equal (fun m => m !! "north")) in H.
    vm_compute in H. discriminate H.
  - apply (bool_decide_unpack _). vm_compute. exact I.
Defined.

(* --------------------------------------------------------------------- *)
(** ** Movement *)
(* --------------------------------------------------------------------- *)

Lemma prints_same_position m w pages :
  prints m w pages -> same_position w (m w).2.
Proof. unfold prints. intros ->. by split. Qed.

Section Movement.

Variable DIRECTIONS : list string.

Lemma move_arrives w token vnum :
  resolves_to DIRECTIONS w token vnum ->
  move DIRECTIONS token w = arrive DIRECTIONS vnum w.
Proof.
  unfold move, mbind at 1, M_bind at 1, get_world. simpl.
  intros [(Hin & room & e & Hroom & He & Hto)
         |[(Hin & Hl) | (Hin & Hl & Hd & ->)]].
  - apply mem_In in Hin. rewrite Hin.
    unfold mbind, M_bind, current. rewrite Hroom, He. by subst.
  - apply mem_false in Hin. by rewrite Hin, Hl.
  - apply mem_false in Hin. by rewrite Hin, Hl, Hd.
Qed.

Lemma arrive_moves w vnum room :
  vnum <> "undefined" -> vnum <> "death" -> rooms w !! vnum = Some room ->
  arrive DIRECTIONS vnum w
  = look DIRECTIONS
      (with_config (<["last_vnum" := JStr vnum]> (config w))
                   (with_currentRoom (Some room) w)).
Proof.
  intros Hu Hd Hroom.
  unfold arrive, mbind at 1, M_bind at 1, get_world. simpl.
  apply String.eqb_neq in Hu, Hd. by rewrite Hu, Hd, Hroom.
Qed.

End Movement.

(** C1: once the token of [move] resolves to a destination, the sentinel
    undefined only prints "Undefined room in that direction!", the sentinel
    death only prints "Deathtrap in that direction!", an identifier that
    is not in the room graph only prints an error message, each leaving
    the current room and last_vnum as they were; any other destination
    becomes the current room, last_vnum becomes its identifier, and the
    room is rendered in full. *)
Theorem C1_move_destination (DIRECTIONS : list string) w token vnum :
  resolves_to DIRECTIONS w token vnum ->
  (vnum = "undefined" ->
   prints (move DIRECTIONS token) w [["Undefined room in that direction!"]]
   /\ same_position w (move DIRECTIONS token w).2)
  /\ (vnum = "death" ->
      prints (move DIRECTIONS token) w [["Deathtrap in that direction!"]]
      /\ same_position w (move DIRECTIONS token w).2)
  /\ (vnum <> "undefined" -> vnum <> "death" -> rooms w !! vnum = None ->
      prints (move DIRECTIONS token) w
        [output_lines ("Error: no rooms in the database with vnum ("
                       +:+ vnum +:+ ").")]
      /\ same_position w (move DIRECTIONS token w).2)
  /\ (forall room,
        vnum <> "undefined" -> vnum <> "death" -> rooms w !! vnum = Some room ->
        let moved := with_config (<["last_vnum" := JStr vnum]> (config w))
                                 (with_currentRoom (Some room) w) in
        let items := sortExits DIRECTIONS (exits room) in
        move DIRECTIONS token w = look DIRECTIONS moved
        /\ prints (look DIRECTIONS) moved
             (look_header moved room
              ++ look_doors (omap SpecExits.door_entry items)
              ++ [look_exits (List.map (SpecExits.symbol (rooms w)) items)]
              ++ look_footer moved room)
        /\ currentRoom (move DIRECTIONS token w).2 = Some room
        /\ config (move DIRECTIONS token w).2 !! "last_vnum" = Some (JStr vnum)).
Proof.
  intros Hres. apply move_arrives in Hres.
  split; [|split; [|split]].
  - intros ->. assert (prints (move DIRECTIONS token) w
                         [["Undefined room in that direction!"]]) as H
      by (unfold prints; by rewrite Hres).
    split; [done | by apply prints_same_position in H].
  - intros ->. assert (prints (move DIRECTIONS token) w
                         [["Deathtrap in that direction!"]]) as H
      by (unfold prints; by rewrite Hres).
    split; [done | by apply prints_same_position in H].
  - intros Hu Hd Hroom.
    assert (prints (move DIRECTIONS token) w
              [output_lines ("Error: no rooms in the database with vnum ("
                             +:+ vnum +:+ ").")]) as H.
    { unfold prints. rewrite Hres.
      unfold arrive, mbind at 1, M_bind at 1, get_world. simpl.
      apply String.eqb_neq in Hu, Hd. by rewrite Hu, Hd, Hroom. }
    split; [done | by apply prints_same_position in H].
  - intros room Hu Hd Hroom moved items.
    pose proof (look_prints DIRECTIONS moved room eq_refl) as Hlook.
    rewrite Hres, (arrive_moves DIRECTIONS w vnum room Hu Hd Hroom).
    fold moved. split; [done|]. split; [exact Hlook|].
    unfold prints in Hlook. rewrite Hlook. simpl.
    split; [done | apply lookup_insert_eq].
Qed.

Lemma C1_move_destination_witness :
  let w := Sample.world Sample.room5 ∅ in
  resolves_to compass w "north" "death"
  /\ prints (move compass "north") w [["Deathtrap in that direction!"]]
  /\ same_position w (move compass "north" w).2.
Proof.
  assert (resolves_to compass (Sample.world Sample.room5 ∅) "north" "death")
    as Hres.
  { left. split; [simpl; auto|].
    exists Sample.room5, (Sample.exit_to "death"). repeat split; reflexivity. }
  split; [exact Hres|].
  exact (proj1 (proj2 (C1_move_destination compass _ "north" "death" Hres))
               eq_refl).
Defined.

(** C4: when the current room R has no exit in direction D, [move D] only
    prints "Alas, you cannot go that way!" and leaves the current room and
    last_vnum unchanged. *)
Theorem C4_no_such_exit (DIRECTIONS : list string) w room direction :
  currentRoom w = Some room ->
  In direction DIRECTIONS ->
  exits room !! direction = None ->
  prints (move DIRECTIONS direction) w [["Alas, you cannot go that way!"]]
  /\ currentRoom (move DIRECTIONS direction w).2 = Some room
  /\ config (move DIRECTIONS direction w).2 = config w.
Proof.
  intros Hroom Hin Hx.
  assert (prints (move DIRECTIONS direction) w
            [["Alas, you cannot go that way!"]]) as H.
  { unfold prints, move, mbind at 1, M_bind at 1, get_world. simpl.
    apply mem_In in Hin. rewrite Hin.
    unfold mbind, M_bind, current. by rewrite Hroom, Hx. }
  split; [done|]. unfold prints in H. by rewrite H.
Qed.

Lemma C4_no_such_exit_witness :
  let w := Sample.world Sample.room2 ∅ in
  prints (move compass "west") w [["Alas, you cannot go that way!"]]
  /\ currentRoom (move compass "west" w).2 = Some Sample.room2
  /\ config (move compass "west" w).2 = config w.
Proof.
  apply (C4_no_such_exit compass (Sample.world Sample.room2 ∅) Sample.room2 "west").
  - reflexivity.
  - simpl. auto 10.
  - reflexivity.
Defined.

(* --------------------------------------------------------------------- *)
(** ** Abbreviated directions *)
(* --------------------------------------------------------------------- *)

Lemma match_input_command userInput command arguments :
  match_input userInput = Some (command, arguments) -> command <> "".
Proof.
  unfold match_input.
  destruct (take_while _ userInput) eqn:Hc; [done|].
  destruct (drop_while _ userInput); intros [= <- _]; done.
Qed.




Lemma prefix_cons c s d t :
  String.prefix (String c s) (String d t)
  = if ascii_dec c d then String.prefix s t else false.
Proof. reflexivity. Qed.





(* --------------------------------------------------------------------- *)
(** ** Settings *)
(* --------------------------------------------------------------------- *)

Lemma toggleSetting_runs setting w :
  let b := eq_False (config_get w setting (JBool true)) in
  toggleSetting setting w
  = (inr (JBool b), with_config (<[setting := JBool b]> (config w)) w).
Proof.
  unfold toggleSetting, mbind, M_bind, get_world, modify. simpl.
  by rewrite lookup_insert_eq.
Qed.

(** C7, the claim as worded fails: with brief set to the empty string,
    which counts as false in [look], the first toggle stores False and
    the second True; the empty string is not stored again, and the
    setting that counted as false now counts as true. *)
Lemma C7_toggle_twice_counterexample :
  let w := Sample.world Sample.room1 {[ "brief" := JStr "" ]} in
  (toggleSetting "brief" w).1 = inr (JBool false)
  /\ (toggleSetting "brief" (toggleSetting "brief" w).2).1 = inr (JBool true)
  /\ truthy (config_get w "brief" (JBool true)) = false
  /\ ~ toggle_twice_restores w "brief".
Proof.
  split; [reflexivity|]. split; [reflexivity|]. split; [reflexivity|].
  unfold toggle_twice_restores. rewrite !toggleSetting_runs. simpl.
  rewrite lookup_insert_eq, lookup_singleton_eq. discriminate.
Qed.

(** C7 (amended): for a setting that holds a boolean, or is absent and
    then counts as True, [toggleSetting] stores and returns the negation,
    and a second toggle stores and returns the original boolean again; a
    setting that was present is then exactly as before. *)
Theorem C7_toggle_round_trip w setting (b : bool) :
  config w !! setting = Some (JBool b)
  \/ (config w !! setting = None /\ b = true) ->
  let once := toggleSetting setting w in
  let twice := toggleSetting setting once.2 in
  once = (inr (JBool (negb b)),
          with_config (<[setting := JBool (negb b)]> (config w)) w)
  /\ twice = (inr (JBool b), with_config (<[setting := JBool b]> (config w)) w)
  /\ (config w !! setting = Some (JBool b) -> twice.2 = w).
Proof.
  intros Hb once twice.
  assert (config_get w setting (JBool true) = JBool b) as Hget.
  { unfold config_get. by destruct Hb as [-> | [-> ->]]. }
  assert (once = (inr (JBool (negb b)),
                  with_config (<[setting := JBool (negb b)]> (config w)) w))
    as Honce.
  { subst once. rewrite toggleSetting_runs. simpl. by rewrite Hget. }
  assert (twice = (inr (JBool b),
                   with_config (<[setting := JBool b]> (config w)) w))
    as Htwice.
  { subst twice. rewrite Honce, toggleSetting_runs. simpl.
    unfold config_get. simpl. rewrite lookup_insert_eq. simpl.
    rewrite negb_involutive. unfold with_config. simpl.
    by rewrite insert_insert_eq. }
  split; [done|]. split; [done|].
  intros Hsome. rewrite Htwice. simpl.
  rewrite (insert_id _ _ _ Hsome). unfold with_config. by destruct w.
Qed.

Lemma C7_toggle_round_trip_witness :
  let w := Sample.world Sample.room1 {[ "brief" := JBool true ]} in
  (toggleSetting "brief" w).1 = inr (JBool false)
  /\ (toggleSetting "brief" (toggleSetting "brief" w).2).2 = w.
Proof.
  pose proof (C7_toggle_round_trip
                (Sample.world Sample.room1 {[ "brief" := JBool true ]})
                "brief" true (or_introl eq_refl)) as (H1 & _ & H3).
  split; [by rewrite H1 | exact (H3 eq_refl)].
Defined.

(** C10, the claim as worded fails: the integer 0 is not False, yet it
    equals False in Python, so toggling a setting that holds 0 gives
    True. *)
Lemma C10_zero_counterexample :
  let w := Sample.world Sample.room1 {[ "brief" := JInt 0 ]} in
  toggleSetting "brief" w
  = (inr (JBool true), with_config {[ "brief" := JBool true ]} w)
  /\ ~ true_only_after_False w "brief".
Proof.
  split.
  - rewrite toggleSetting_runs. simpl. unfold with_config. simpl.
    by rewrite insert_singleton_eq.
  - intros H. destruct (H (JInt 0)) as (b & Hb & Hiff).
    { apply lookup_singleton_eq. }
    rewrite toggleSetting_runs in Hb. simpl in Hb.
    rewrite lookup_insert_eq in Hb. injection Hb as <-.
    unfold config_get in Hiff. simpl in Hiff.
    rewrite lookup_singleton_eq in Hiff. simpl in Hiff.
    by destruct Hiff as [Hiff _]; specialize (Hiff eq_refl).
Qed.

(** C10 (amended): after [toggleSetting] the setting holds a boolean,
    whatever it held before, and this boolean is the value returned; it is
    True exactly when the previous value equals False in Python, that is,
    when it was False, the integer 0 or a float zero, and it is False when
    the setting was absent. *)
Theorem C10_toggle_stores_boolean w setting :
  exists b : bool,
    (toggleSetting setting w).1 = inr (JBool b)
    /\ config (toggleSetting setting w).2 !! setting = Some (JBool b)
    /\ (forall previous,
          config w !! setting = Some previous ->
          (b = true <->
           previous = JBool false \/ previous = JInt 0
           \/ exists sign, previous = JFloat (S754_zero sign)))
    /\ (config w !! setting = None -> b = false).
Proof.
  exists (eq_False (config_get w setting (JBool true))).
  rewrite toggleSetting_runs. simpl.
  split; [done|]. split; [apply lookup_insert_eq|]. split.
  - intros previous Hprev. unfold config_get. rewrite Hprev.
    destruct previous as [|[]|n|[]| | |]; simpl; split;
      try done; try (intros [H|[H|[sg H]]]; done); eauto.
    + intros H. apply Z.eqb_eq in H. subst. auto.
    + intros [H|[H|[sg H]]]; try done. by injection H as ->.
  - intros Hnone. unfold config_get. by rewrite Hnone.
Qed.

(* --------------------------------------------------------------------- *)
(** ** Loading the configuration *)
(* --------------------------------------------------------------------- *)

Lemma getConfig_layer fs fileName members w :
  layer (fs fileName) = Some members ->
  getConfig fs fileName w
  = (inr (Dict members),
     with_paged (paged w ++ warning fileName (fs fileName)) w).
Proof.
  unfold getConfig, layer, warning.
  destruct (fs fileName) as [| | | |[]]; intros [= <-]; try reflexivity.
  - unfold mret, M_ret. by rewrite app_nil_r, with_paged_id.
  - unfold mret, M_ret. by rewrite app_nil_r, with_paged_id.
Qed.

(** Loading in layers: when each of the two files is missing, a
    directory, unreadable, not JSON or a JSON object, [loadConfig] returns
    normally with the sample layer under the user layer, which wins on
    every key of its own, and prints one warning for each file that is
    present and unusable. *)
Lemma loadConfig_layers fs w sample user :
  layer (fs (sampleConfigFile w)) = Some sample ->
  layer (fs (configFile w)) = Some user ->
  loadConfig fs w
  = (inr tt,
     with_config (user ∪ (sample ∪ config w))
       (with_paged (paged w
                    ++ warning (sampleConfigFile w) (fs (sampleConfigFile w))
                    ++ warning (configFile w) (fs (configFile w))) w))
  /\ (forall key value,
        user !! key = Some value ->
        (user ∪ (sample ∪ config w)) !! key = Some value)
  /\ (forall key,
        user !! key = None ->
        (user ∪ (sample ∪ config w)) !! key = (sample ∪ config w) !! key).
Proof.
  intros Hs Hu. split; [|split].
  - unfold loadConfig, mbind at 1, M_bind at 1, get_world. simpl.
    unfold mbind at 1, M_bind at 1.
    rewrite (getConfig_layer fs _ sample w Hs).
    unfold mbind at 1, M_bind at 1, config_update at 1, modify. simpl.
    unfold mbind at 1, M_bind at 1.
    rewrite (getConfig_layer fs _ user _ Hu). simpl.
    unfold with_config, with_paged. simpl. by rewrite app_assoc.
  - intros key value Hk. by apply lookup_union_Some_l.
  - intros key Hk. by apply lookup_union_r.
Qed.

(** C8, the code at the failing input: a user configuration file that
    holds valid JSON other than an object (here [null]) is returned by
    [getConfig] as it is, and [dict.update] raises TypeError on it outside
    the try block, so [loadConfig] fails without a warning. *)
Theorem C8_loadConfig_raises :
  loadConfig null_user_file (Sample.world Sample.room1 ∅)
  = (inl TypeError, Sample.world Sample.room1 ∅).
Proof. reflexivity. Qed.

(* --------------------------------------------------------------------- *)
(** ** Startup *)
(* --------------------------------------------------------------------- *)

Lemma ascii_compare_refl c : Ascii.compare c c = Eq.
Proof. unfold Ascii.compare. apply N.compare_refl. Qed.

Lemma leb_trans a b c :
  String.leb a b = true -> String.leb b c = true -> String.leb a c = true.
Proof.
  unfold String.leb. revert b c.
  induction a as [|x a IH]; intros [|y b] [|z c]; simpl; try done.
  destruct (Ascii.compare x y) eqn:Hxy; try done;
    destruct (Ascii.compare y z) eqn:Hyz; try done.
  - apply Ascii.compare_eq_iff in Hxy, Hyz. subst.
    rewrite ascii_compare_refl. apply IH.
  - apply Ascii.compare_eq_iff in Hxy. subst. by rewrite Hyz.
  - apply Ascii.compare_eq_iff in Hyz. subst. by rewrite Hxy.
  - unfold Ascii.compare in *.
    apply N.compare_lt_iff in Hxy. apply N.compare_lt_iff in Hyz.
    assert ((N_of_ascii x ?= N_of_ascii z)%N = Lt) as ->
      by (apply N.compare_lt_iff; by apply N.lt_trans with (N_of_ascii y)).
    done.
Qed.

#[global] Instance str_le_trans : Transitive str_le.
Proof. intros a b c. apply leb_trans. Qed.

#[global] Instance str_le_total : Total str_le.
Proof. intros a b. apply String.leb_total. Qed.

Lemma smallest_identifier_unique known v v' :
  smallest_identifier known v -> smallest_identifier known v' -> v = v'.
Proof.
  intros [Hv Hmin] [Hv' Hmin'].
  apply String.leb_antisym; [by apply Hmin | by apply Hmin'].
Qed.

Lemma key_in_list (known : gmap string Room) k :
  k ∈ (map_to_list known).*1 <-> is_Some (known !! k).
Proof.
  rewrite list_elem_of_fmap. split.
  - intros ([k' r] & -> & Hin). apply elem_of_map_to_list in Hin. by exists r.
  - intros [r Hr]. exists (k, r). split; [done | by apply elem_of_map_to_list].
Qed.

(** [sorted(self.rooms)[0]] is the smallest identifier, and exists as
    soon as the graph has a room. *)
Lemma first_sorted_smallest known v w :
  smallest_identifier known v -> first_sorted known w = (inr v, w).
Proof.
  intros Hv. unfold first_sorted.
  pose proof (StronglySorted_merge_sort str_le (map_to_list known).*1) as Hsorted.
  pose proof (merge_sort_Permutation str_le (map_to_list known).*1) as Hperm.
  destruct (merge_sort str_le (map_to_list known).*1) as [|v' rest].
  - destruct Hv as [Hv _]. apply key_in_list in Hv.
    rewrite <- Hperm in Hv. by apply elem_of_nil in Hv.
  - assert (smallest_identifier known v') as Hv'.
    { split.
      - apply key_in_list. rewrite <- Hperm. by left.
      - intros k Hk. apply key_in_list in Hk. rewrite <- Hperm in Hk.
        apply StronglySorted_inv in Hsorted as [_ Hall].
        apply elem_of_cons in Hk as [->|Hk].
        + unfold str_le. by destruct (String.leb_total v' v').
        + rewrite Forall_forall in Hall. by apply Hall. }
    by rewrite (smallest_identifier_unique known v v' Hv Hv').
Qed.

Lemma zero_precedes_numeric k : PyStr.isdigit k = true -> str_le "0" k.
Proof.
  destruct k as [|c s]; [done|]. simpl.
  intros H. apply andb_prop in H as [Hc _].
  unfold str_le, String.leb. cbn [String.compare].
  unfold PyStr.isdigit_char, PyStr.code in Hc. unfold Ascii.compare.
  change (N_of_ascii "0") with 48%N.
  destruct (48 ?= N_of_ascii c)%N eqn:Hcmp; [by destruct s | done |].
  apply N.compare_gt_iff in Hcmp.
  repeat (apply orb_prop in Hc as [Hc|Hc]);
    [apply andb_prop in Hc as [Hc _]; apply N.leb_le in Hc; lia
    | apply N.eqb_eq in Hc; lia ..].
Qed.

Lemma numeric_not_sentinel v :
  PyStr.isdigit v = true -> v <> "undefined" /\ v <> "death".
Proof. split; intros ->; discriminate. Qed.

(** [loadConfig] touches the configuration and the output only. *)
Lemma loadConfig_frame fs w result w' :
  loadConfig fs w = (result, w') ->
  rooms w' = rooms w /\ labels w' = labels w.
Proof.
  unfold loadConfig, getConfig, config_update, mbind, M_bind, get_world,
    mret, M_ret, modify, output, raise. simpl.
  destruct (fs (sampleConfigFile w)) as [| | | |[? | | | | |[|]]]; simpl;
    try (intros [= <- <-]; done);
    destruct (fs (configFile w)) as [| | | |[? | | | | |[|]]]; simpl;
    intros [= <- <-]; done.
Qed.

(** C6, the code at the failing input: the user file persists room 1,
    which is in the room graph, so that line 32 keeps it as the start
    identifier; [__init__] hands it to [move], which looks a token up
    among the labels before it takes it as an identifier, and "1" is also
    a label of room 2: the session starts in room 2, not in the room that
    was persisted, against the comment on line 31 and the membership test
    on line 32. *)
Lemma C6_label_counterexample :
  start_identifier (config (loadConfig Shadowed.files (greeted Shadowed.world)).2)
                   (rooms Shadowed.world) "1"
  /\ vnum <$> currentRoom (init compass Shadowed.files Shadowed.world).2 = Some "2"
  /\ ~ starts_where_claimed compass Shadowed.files Shadowed.world.
Proof.
  assert (start_identifier
            (config (loadConfig Shadowed.files (greeted Shadowed.world)).2)
            (rooms Shadowed.world) "1") as Hstart by (vm_compute; reflexivity).
  split; [exact Hstart|]. split; [reflexivity|].
  intros H. specialize (H "1" Hstart).
  apply (f_equal (fmap vnum)) in H. vm_compute in H. discriminate H.
Qed.

Lemma bind_output {A} text (k : unit -> M A) w :
  (output text ≫= k) w = k tt (with_paged (paged w ++ [output_lines text]) w).
Proof. reflexivity. Qed.

Lemma bind_get_world {A} (k : EmulatedWorld -> M A) w :
  (get_world ≫= k) w = k w w.
Proof. reflexivity. Qed.

Lemma bind_modify {A} f (k : unit -> M A) w :
  (modify f ≫= k) w = k tt (f w).
Proof. reflexivity. Qed.

Section Startup.

Variable DIRECTIONS : list string.

Lemma init_after_greeting fs w :
  init DIRECTIONS fs w
  = (loadConfig fs;;
     w ← get_world;
     lastVnum ← match config_get w "last_vnum" (JStr "0") with
                | JStr s =>
                    if bool_decide (is_Some (rooms w !! s)) then mret s
                    else first_sorted (rooms w)
                | JList _ | JObj _ => raise TypeError
                | JNull | JBool _ | JInt _ | JFloat _ => first_sorted (rooms w)
                end;
     move DIRECTIONS lastVnum) (greeted w).
Proof.
  unfold init.
  rewrite !bind_output, bind_get_world, bind_output, bind_modify.
  f_equal. unfold greeted, with_config, with_paged.
  cbn [rooms labels config currentRoom configFile sampleConfigFile paged].
  rewrite <- !app_assoc. reflexivity.
Qed.

Lemma start_identifier_known settings known v :
  start_identifier settings known v -> is_Some (known !! v).
Proof.
  unfold start_identifier.
  destruct (settings !! "last_vnum") as [[]|]; try (by intros [H _]).
  case_bool_decide as Hs; [by intros -> | by intros [H _]].
Qed.

(** The choice that [__init__] makes is the start identifier. *)
Lemma start_selected w v :
  hashable_last_vnum (config w) ->
  map_Forall (fun k _ => PyStr.isdigit k = true) (rooms w) ->
  start_identifier (config w) (rooms w) v ->
  match config_get w "last_vnum" (JStr "0") with
  | JStr s =>
      if bool_decide (is_Some (rooms w !! s)) then mret s
      else first_sorted (rooms w)
  | JList _ | JObj _ => raise TypeError
  | JNull | JBool _ | JInt _ | JFloat _ => first_sorted (rooms w)
  end w = (inr v, w).
Proof.
  unfold hashable_last_vnum, start_identifier, config_get.
  intros Hhash Hnum Hstart.
  destruct (config w !! "last_vnum") as [[]|]; try done;
    try (by apply first_sorted_smallest).
  - case_bool_decide; [by subst | by apply first_sorted_smallest].
  - case_bool_decide as Hzero; [|by apply first_sorted_smallest].
    assert (smallest_identifier (rooms w) "0") as Hsmall.
    { split; [done|]. intros k [r Hk]. apply zero_precedes_numeric.
      by apply (Hnum k r). }
    by rewrite (smallest_identifier_unique _ _ _ Hstart Hsmall).
Qed.

End Startup.

(** Where [__init__] does start at the start identifier: with a
    configuration that loads and whose last_vnum is no list or object,
    room identifiers that are numeric, and a start identifier (the
    persisted last_vnum when it is in the room graph, else the
    lexicographically smallest identifier of the graph) that is neither a
    direction name nor a label, the initial current room is the room with
    the start identifier, it becomes last_vnum, and it is rendered once,
    after the greeting and the configuration warnings. *)
Lemma init_starts_at_identifier (DIRECTIONS : list string) fs w loaded v :
  loadConfig fs (greeted w) = (inr tt, loaded) ->
  hashable_last_vnum (config loaded) ->
  map_Forall (fun k _ => PyStr.isdigit k = true) (rooms w) ->
  start_identifier (config loaded) (rooms w) v ->
  ~ In v DIRECTIONS ->
  labels w !! v = None ->
  exists room,
    rooms w !! v = Some room
    /\ let started :=
         with_config (<["last_vnum" := JStr v]> (config loaded))
                     (with_currentRoom (Some room) loaded) in
       let items := sortExits DIRECTIONS (exits room) in
       init DIRECTIONS fs w = look DIRECTIONS started
       /\ (init DIRECTIONS fs w).1 = inr tt
       /\ currentRoom (init DIRECTIONS fs w).2 = Some room
       /\ config (init DIRECTIONS fs w).2 !! "last_vnum" = Some (JStr v)
       /\ paged (init DIRECTIONS fs w).2
          = paged loaded
            ++ look_header started room
            ++ look_doors (omap SpecExits.door_entry items)
            ++ [look_exits (List.map (SpecExits.symbol (rooms w)) items)]
            ++ look_footer started room.
Proof.
  intros Hload Hhash Hnum Hstart Hdir Hlabel.
  destruct (loadConfig_frame _ _ _ _ Hload) as [Hrooms Hlabels].
  simpl in Hrooms, Hlabels.
  destruct (start_identifier_known _ _ _ Hstart) as [room Hroom].
  exists room. split; [done|]. intros started items.
  assert (PyStr.isdigit v = true) as Hdigit by by apply (Hnum v room).
  destruct (numeric_not_sentinel v Hdigit) as [Hu Hd].
  assert (init DIRECTIONS fs w = look DIRECTIONS started) as Hinit.
  { rewrite init_after_greeting.
    unfold mbind at 1, M_bind at 1. rewrite Hload.
    unfold mbind at 1, M_bind at 1, get_world.
    unfold mbind at 1, M_bind at 1.
    rewrite (start_selected loaded v); rewrite ?Hrooms; try done.
    rewrite (move_arrives DIRECTIONS loaded v v).
    - apply arrive_moves; [done | done | by rewrite Hrooms].
    - right. right. by rewrite Hlabels. }
  pose proof (look_prints DIRECTIONS started room eq_refl) as Hlook.
  unfold prints in Hlook. fold items in Hlook.
  split; [done|]. rewrite Hinit, Hlook. simpl.
  repeat split; try done.
  - apply lookup_insert_eq.
  - by rewrite Hrooms.
Qed.

Lemma init_starts_at_identifier_witness :
  vnum <$> currentRoom (init compass Persisted.files Persisted.world).2 = Some "3"
  /\ paged (init compass Persisted.files Persisted.world).2
     = [["Welcome to Mume Map Emulation!"]; ["Loading the world database."];
        ["Loaded 4 rooms."];
        ["Error: 'data/emulation_config.json.sample' is a directory, not a file."];
        ["The Great Road"]; []; ["Exits: south"]; ["Vnum: 3"]].
Proof.
  destruct (init_starts_at_identifier compass Persisted.files Persisted.world
              (loadConfig Persisted.files (greeted Persisted.world)).2 "3")
    as (room & Hroom & _ & _ & Hcur & _ & Hout).
  - reflexivity.
  - exact I.
  - apply (bool_decide_unpack _). vm_compute. exact I.
  - vm_compute. reflexivity.
  - vm_compute. intuition discriminate.
  - reflexivity.
  - injection Hroom as <-. split; [by rewrite Hcur | exact Hout].
Defined.

(** Without any configuration file the session of the sample graph starts
    in room 1, the smallest identifier. *)
Example startup_without_files :
  vnum <$> currentRoom (init compass (fun _ => NoSuchFile) Persisted.world).2
  = Some "1".
Proof. reflexivity. Qed.


(* --------------------------------------------------------------------- *)
(** ** What output hands to the pager *)
(* --------------------------------------------------------------------- *)

Lemma all_chars_append p a b :
  PyStr.all_chars p (a +:+ b) = PyStr.all_chars p a && PyStr.all_chars p b.
Proof.
  induction a as [|c a IH]; simpl; [done|].
  by rewrite IH, andb_assoc.
Qed.

Lemma all_chars_rev_onto p s acc :
  PyStr.all_chars p (PyStr.rev_onto s acc)
  = PyStr.all_chars p s && PyStr.all_chars p acc.
Proof.
  revert acc. induction s as [|c s IH]; intros acc; simpl; [done|].
  rewrite IH. simpl. destruct (p c), (PyStr.all_chars p s); simpl; try done.
Qed.

Lemma all_chars_rev p s : PyStr.all_chars p (PyStr.rev s) = PyStr.all_chars p s.
Proof. unfold PyStr.rev. rewrite all_chars_rev_onto. simpl. apply andb_true_r. Qed.

Lemma all_chars_lstrip p s :
  PyStr.all_chars p s = true -> PyStr.all_chars p (PyStr.lstrip s) = true.
Proof.
  induction s as [|c s IH]; simpl; [done|].
  intros H. destruct (PyStr.isspace c); [|done].
  apply andb_prop in H as [_ H]. by apply IH.
Qed.

Lemma all_chars_strip p s :
  PyStr.all_chars p s = true -> PyStr.all_chars p (PyStr.strip s) = true.
Proof.
  intros H. unfold PyStr.strip, PyStr.rstrip.
  rewrite all_chars_rev. apply all_chars_lstrip.
  rewrite all_chars_rev. by apply all_chars_lstrip.
Qed.

Lemma splitlines_from_unbroken after_cr cur s :
  unbroken cur -> Forall unbroken (PyStr.splitlines_from after_cr cur s).
Proof.
  revert after_cr cur. induction s as [|c s IH]; intros after_cr cur Hcur; simpl.
  - destruct cur; [constructor|]. constructor; [|constructor].
    unfold unbroken. by rewrite all_chars_rev.
  - destruct (after_cr && (PyStr.code c =? 10)%N); [by apply IH|].
    destruct (PyStr.islinebreak c) eqn:Hc.
    + constructor; [|by apply IH].
      unfold unbroken. by rewrite all_chars_rev.
    + apply IH. unfold unbroken in *. simpl. by rewrite Hc.
Qed.

(** X1: whatever text [output] is given, it makes one call of the pager,
    and no line of that call is blank or holds a character at which lines
    break. *)
Theorem output_hands_clean_lines text w :
  exists page,
    output text w = (inr tt, with_paged (paged w ++ [page]) w)
    /\ Forall (fun line => unbroken line /\ PyStr.strip line <> "") page.
Proof.
  exists (output_lines text). split; [reflexivity|].
  unfold output_lines. apply Forall_forall. intros line Hin.
  apply list_elem_of_In, filter_In in Hin as [Hin Hblank]. split.
  - pose proof (splitlines_from_unbroken false "" text eq_refl) as Hall.
    rewrite Forall_forall in Hall. by apply Hall, list_elem_of_In.
  - intros Heq. by rewrite Heq in Hblank.
Qed.

(* --------------------------------------------------------------------- *)
(** ** More on the room render *)
(* --------------------------------------------------------------------- *)

Lemma join_unbroken parts :
  Forall unbroken parts -> unbroken (PyStr.join " " parts).
Proof.
  induction 1 as [|p parts Hp Hparts IH]; [done|].
  destruct parts as [|q parts]; [done|].
  unfold unbroken in *.
  change (PyStr.join " " (p :: q :: parts))
    with (p +:+ " " +:+ PyStr.join " " (q :: parts)).
  rewrite !all_chars_append, Hp, IH. done.
Qed.

(** The description as [look] prints it: its lines that are not blank,
    stripped and joined by single spaces. *)
Lemma collapsed_description_unbroken text :
  unbroken (PyStr.join " "
              (List.map PyStr.strip
                 (List.filter (fun line => PyStr.nonempty (PyStr.strip line))
                              (PyStr.splitlines text)))).
Proof.
  apply join_unbroken, Forall_forall. intros line Hin.
  apply list_elem_of_In, in_map_iff in Hin as (raw & <- & Hraw).
  apply filter_In in Hraw as [Hraw _].
  apply all_chars_strip.
  pose proof (splitlines_from_unbroken false "" text eq_refl) as Hall.
  rewrite Forall_forall in Hall. by apply Hall, list_elem_of_In.
Qed.

Example description_collapsed :
  output_lines
    (PyStr.join " "
       (List.map PyStr.strip
          (List.filter (fun line => PyStr.nonempty (PyStr.strip line))
             (PyStr.splitlines
                ("High walls." +:+ String "010" (String "010" " Cold air. "))))))
  = ["High walls. Cold air."].
Proof. reflexivity. Qed.

(** X3: [look] changes nothing but the output, and a second [look] right
    after the first prints the same pages again. *)
Theorem look_twice_prints_the_same (DIRECTIONS : list string) w room :
  currentRoom w = Some room ->
  exists pages,
    prints (look DIRECTIONS) w pages
    /\ prints (look DIRECTIONS) (look DIRECTIONS w).2 pages
    /\ (look DIRECTIONS (look DIRECTIONS w).2).2
       = with_paged (paged w ++ pages ++ pages) w.
Proof.
  intros Hroom.
  pose proof (look_prints DIRECTIONS w room Hroom) as H1. simpl in H1.
  match type of H1 with prints _ _ ?p => set (pages := p) in * end.
  exists pages. split; [exact H1|].
  unfold prints in H1. rewrite H1. simpl.
  assert (prints (look DIRECTIONS) (with_paged (paged w ++ pages) w) pages)
    as H2
    by exact (look_prints DIRECTIONS (with_paged (paged w ++ pages) w) room Hroom).
  split; [exact H2|].
  unfold prints in H2. rewrite H2.
  unfold with_paged. simpl. by rewrite <- app_assoc.
Qed.

Lemma look_twice_prints_the_same_witness :
  (look compass (look compass (Sample.world Sample.room1 ∅)).2).2
  = with_paged [["A cell"]; []; ["Exits: None!"]; ["Vnum: 1"];
                ["A cell"]; []; ["Exits: None!"]; ["Vnum: 1"]]
               (Sample.world Sample.room1 ∅).
Proof.
  destruct (look_twice_prints_the_same compass (Sample.world Sample.room1 ∅)
              Sample.room1 eq_refl) as (pages & H1 & _ & H3).
  unfold prints in H1. vm_compute in H1. injection H1 as <-.
  exact H3.
Defined.

(* --------------------------------------------------------------------- *)
(** ** More on movement *)
(* --------------------------------------------------------------------- *)

Section MoreMovement.

Variable DIRECTIONS : list string.

(** The second half of [move] either only prints, or moves and renders. *)
Lemma arrive_cases v w :
  (exists pages, prints (arrive DIRECTIONS v) w pages)
  \/ (exists room pages,
        rooms w !! v = Some room
        /\ arrive DIRECTIONS v w
           = (inr tt, with_paged (paged w ++ pages) (moved_to v room w))).
Proof.
  destruct (String.eqb_spec v "undefined") as [Hu|Hu].
  { left. eexists. unfold prints, arrive, mbind, M_bind, get_world. simpl.
    apply String.eqb_eq in Hu. rewrite Hu. reflexivity. }
  destruct (String.eqb_spec v "death") as [Hd|Hd].
  { left. eexists. unfold prints, arrive, mbind, M_bind, get_world. simpl.
    apply String.eqb_neq in Hu. apply String.eqb_eq in Hd. rewrite Hu, Hd.
    reflexivity. }
  destruct (rooms w !! v) as [room|] eqn:Hroom.
  - right. exists room.
    pose proof (look_prints DIRECTIONS (moved_to v room w) room eq_refl) as Hlook.
    simpl in Hlook. eexists. split; [done|].
    rewrite (arrive_moves DIRECTIONS w v room Hu Hd Hroom). exact Hlook.
  - left. eexists. unfold prints, arrive, mbind, M_bind, get_world. simpl.
    apply String.eqb_neq in Hu, Hd. rewrite Hu, Hd, Hroom. reflexivity.
Qed.

(** [move] does one of three things. *)
Lemma move_cases text w :
  (exists pages, prints (move DIRECTIONS text) w pages)
  \/ (currentRoom w = None /\ In text DIRECTIONS
      /\ move DIRECTIONS text w = (inl AttributeError, w))
  \/ (exists v room pages,
        rooms w !! v = Some room
        /\ move DIRECTIONS text w
           = (inr tt, with_paged (paged w ++ pages) (moved_to v room w))).
Proof.
  assert (forall v, move DIRECTIONS text w = arrive DIRECTIONS v w ->
            (exists pages, prints (move DIRECTIONS text) w pages)
            \/ (exists v room pages,
                  rooms w !! v = Some room
                  /\ move DIRECTIONS text w
                     = (inr tt, with_paged (paged w ++ pages) (moved_to v room w))))
    as Harrive.
  { intros v Hv. destruct (arrive_cases v w) as [[pages H]|(room & pages & Hr & H)].
    - left. exists pages. unfold prints in *. by rewrite Hv.
    - right. exists v, room, pages. by rewrite Hv. }
  destruct (PyStr.mem text DIRECTIONS) eqn:Hmem.
  - destruct (currentRoom w) as [room|] eqn:Hroom.
    + destruct (exits room !! text) as [e|] eqn:He.
      * destruct (Harrive (to e)) as [H|H]; [|by left|by right; right].
        unfold move, mbind at 1, M_bind at 1, get_world. cbn beta iota.
        rewrite Hmem. unfold mbind, M_bind, current. by rewrite Hroom, He.
      * left. eexists. unfold prints, move, mbind at 1, M_bind at 1, get_world.
        cbn beta iota. rewrite Hmem. unfold mbind, M_bind, current.
        rewrite Hroom, He. reflexivity.
    + right. left. split; [done|]. split; [by apply mem_In|].
      unfold move, mbind at 1, M_bind at 1, get_world. cbn beta iota.
      rewrite Hmem. unfold mbind, M_bind, current. by rewrite Hroom.
  - destruct (labels w !! text) as [v|] eqn:Hl.
    + destruct (Harrive v) as [H|H]; [|by left|by right; right].
      unfold move, mbind at 1, M_bind at 1, get_world. cbn beta iota.
      by rewrite Hmem, Hl.
    + destruct (PyStr.isdigit text) eqn:Hd.
      * destruct (Harrive text) as [H|H]; [|by left|by right; right].
        unfold move, mbind at 1, M_bind at 1, get_world. cbn beta iota.
        by rewrite Hmem, Hl, Hd.
      * left. eexists. unfold prints, move, mbind at 1, M_bind at 1, get_world.
        cbn beta iota. rewrite Hmem, Hl, Hd. reflexivity.
Qed.

End MoreMovement.

(** A token that is no direction, no label and not numeric is
    refused: [move] only prints that it is neither a direction, a label
    nor a vnum, and the world is otherwise as it was. *)
Theorem move_rejects_unknown_token (DIRECTIONS : list string) w text :
  ~ In text DIRECTIONS ->
  labels w !! text = None ->
  PyStr.isdigit text = false ->
  prints (move DIRECTIONS text) w
         [output_lines ("Error: " +:+ text
                        +:+ " isn't a direction, label, or vnum.")].
Proof.
  intros Hdir Hlabel Hdigit. apply mem_false in Hdir.
  unfold prints, move, mbind at 1, M_bind at 1, get_world. cbn beta iota.
  by rewrite Hdir, Hlabel, Hdigit.
Qed.

Lemma move_rejects_unknown_token_witness :
  prints (move compass "northwards") (Sample.world Sample.room2 ∅)
         [["Error: northwards isn't a direction, label, or vnum."]].
Proof.
  apply (move_rejects_unknown_token compass (Sample.world Sample.room2 ∅)
           "northwards").
  - simpl. intuition discriminate.
  - reflexivity.
  - reflexivity.
Defined.

(** X4: [move] raises nothing but AttributeError, and only when it is
    given a direction while no current room is set; it has then printed
    and changed nothing.  In every other case it returns normally. *)
Theorem move_raises_only_without_room (DIRECTIONS : list string) w text :
  (move DIRECTIONS text w).1 = inr tt
  \/ (move DIRECTIONS text w = (inl AttributeError, w)
      /\ currentRoom w = None /\ In text DIRECTIONS).
Proof.
  destruct (move_cases DIRECTIONS text w)
    as [[pages H]|[(Hroom & Hin & H)|(v & room & pages & _ & H)]].
  - left. unfold prints in H. by rewrite H.
  - right. done.
  - left. by rewrite H.
Qed.

(** X5: [move] never touches the room graph, the labels, the paths of the
    configuration files or any setting other than last_vnum, and it only
    adds to the output. *)
Theorem move_frame (DIRECTIONS : list string) w text :
  let w' := (move DIRECTIONS text w).2 in
  rooms w' = rooms w
  /\ labels w' = labels w
  /\ configFile w' = configFile w
  /\ sampleConfigFile w' = sampleConfigFile w
  /\ (forall key, key <> "last_vnum" -> config w' !! key = config w !! key)
  /\ exists pages, paged w' = paged w ++ pages.
Proof.
  destruct (move_cases DIRECTIONS text w)
    as [[pages H]|[(Hroom & Hin & H)|(v & room & pages & _ & H)]];
    [unfold prints in H| |]; rewrite H; simpl; repeat split; try done.
  - by exists pages.
  - exists []. by rewrite app_nil_r.
  - intros key Hkey. by rewrite lookup_insert_ne.
  - by exists pages.
Qed.

(** X6: once last_vnum names the current room it does so after every
    [move], whatever the token and whether or not the move is accepted. *)
Theorem move_keeps_position (DIRECTIONS : list string) w text :
  positioned w -> positioned (move DIRECTIONS text w).2.
Proof.
  intros (v0 & room0 & Hcfg & Hrooms & Hcur).
  destruct (move_cases DIRECTIONS text w)
    as [[pages H]|[(Hroom & Hin & H)|(v & room & pages & Hv & H)]].
  - unfold prints in H. rewrite H. by exists v0, room0.
  - rewrite H. by exists v0, room0.
  - rewrite H. exists v, room. simpl. by rewrite lookup_insert_eq.
Qed.

Lemma move_keeps_position_witness :
  let w := Sample.world Sample.room2 {[ "last_vnum" := JStr "2" ]} in
  positioned w /\ positioned (move compass "north" w).2.
Proof.
  assert (positioned (Sample.world Sample.room2 {[ "last_vnum" := JStr "2" ]}))
    as H by (exists "2", Sample.room2; repeat split; reflexivity).
  split; [exact H | exact (move_keeps_position compass _ "north" H)].
Defined.

Lemma arrive_ignores_labels (DIRECTIONS : list string) v w other :
  arrive DIRECTIONS v (with_labels other w)
  = ((arrive DIRECTIONS v w).1, with_labels other (arrive DIRECTIONS v w).2).
Proof.
  destruct (String.eqb_spec v "undefined") as [Hu|Hu].
  { subst v. reflexivity. }
  destruct (String.eqb_spec v "death") as [Hd|Hd].
  { subst v. reflexivity. }
  destruct (rooms w !! v) as [room|] eqn:Hroom.
  - rewrite (arrive_moves DIRECTIONS w v room Hu Hd Hroom).
    rewrite (arrive_moves DIRECTIONS (with_labels other w) v room Hu Hd Hroom).
    pose proof (look_prints DIRECTIONS (moved_to v room w) room eq_refl) as H1.
    pose proof (look_prints DIRECTIONS (moved_to v room (with_labels other w))
                  room eq_refl) as H2.
    unfold prints in H1, H2. simpl in H1, H2.
    fold (moved_to v room w). fold (moved_to v room (with_labels other w)).
    rewrite H1, H2. reflexivity.
  - unfold arrive, mbind, M_bind, get_world. simpl.
    apply String.eqb_neq in Hu, Hd. rewrite Hu, Hd, Hroom. reflexivity.
Qed.

(** X7: for a token that is a direction the labels are never consulted:
    a label that has the name of a direction cannot be reached, and [move]
    behaves the same under any other set of labels. *)
Theorem move_direction_ignores_labels (DIRECTIONS : list string) w text other :
  In text DIRECTIONS ->
  move DIRECTIONS text (with_labels other w)
  = ((move DIRECTIONS text w).1, with_labels other (move DIRECTIONS text w).2).
Proof.
  intros Hin. apply mem_In in Hin.
  destruct (currentRoom w) as [room|] eqn:Hroom.
  - destruct (exits room !! text) as [e|] eqn:He.
    + assert (forall w0, currentRoom w0 = Some room ->
                move DIRECTIONS text w0 = arrive DIRECTIONS (to e) w0) as Hgo.
      { intros w0 H0.
        unfold move, mbind at 1, M_bind at 1, get_world. cbn beta iota.
        rewrite Hin. unfold mbind, M_bind, current. by rewrite H0, He. }
      rewrite (Hgo w Hroom), (Hgo (with_labels other w) Hroom).
      apply arrive_ignores_labels.
    + assert (forall w0, currentRoom w0 = Some room ->
                move DIRECTIONS text w0
                = output "Alas, you cannot go that way!" w0) as Hgo.
      { intros w0 H0.
        unfold move, mbind at 1, M_bind at 1, get_world. cbn beta iota.
        rewrite Hin. unfold mbind, M_bind, current. by rewrite H0, He. }
      by rewrite (Hgo w Hroom), (Hgo (with_labels other w) Hroom).
  - assert (forall w0, currentRoom w0 = None ->
              move DIRECTIONS text w0 = (inl AttributeError, w0)) as Hgo.
    { intros w0 H0.
      unfold move, mbind at 1, M_bind at 1, get_world. cbn beta iota.
      rewrite Hin. unfold mbind, M_bind, current. by rewrite H0. }
    by rewrite (Hgo w Hroom), (Hgo (with_labels other w) Hroom).
Qed.

Lemma move_direction_ignores_labels_witness :
  move compass "north" (with_labels {[ "north" := "5" ]}
                                    (Sample.world Sample.room2 ∅))
  = ((move compass "north" (Sample.world Sample.room2 ∅)).1,
     with_labels {[ "north" := "5" ]}
                 (move compass "north" (Sample.world Sample.room2 ∅)).2).
Proof.
  apply (move_direction_ignores_labels compass). simpl. auto.
Defined.

(** X8: when the exit of the current room in one direction leads to a
    room whose exit in another direction leads back, and both rooms are
    stored under the identifiers of these exits, going there and back
    ends in the room one started from, with last_vnum naming it. *)
Theorem move_there_and_back (DIRECTIONS : list string) w here there
    out back e_out e_back :
  currentRoom w = Some here ->
  In out DIRECTIONS -> In back DIRECTIONS ->
  exits here !! out = Some e_out ->
  rooms w !! to e_out = Some there ->
  exits there !! back = Some e_back ->
  rooms w !! to e_back = Some here ->
  PyStr.isdigit (to e_out) = true -> PyStr.isdigit (to e_back) = true ->
  let w' := (move DIRECTIONS back (move DIRECTIONS out w).2).2 in
  currentRoom w' = Some here
  /\ config w' !! "last_vnum" = Some (JStr (to e_back))
  /\ currentRoom (move DIRECTIONS out w).2 = Some there.
Proof.
  intros Hcur Hout Hback Heout Hthere Heback Hhere Hd1 Hd2.
  destruct (numeric_not_sentinel _ Hd1) as [Hu1 Hs1].
  destruct (numeric_not_sentinel _ Hd2) as [Hu2 Hs2].
  assert (move DIRECTIONS out w
          = look DIRECTIONS (moved_to (to e_out) there w)) as H1.
  { rewrite (move_arrives DIRECTIONS w out (to e_out)).
    - by apply arrive_moves.
    - left. split; [done|]. by exists here, e_out. }
  pose proof (look_prints DIRECTIONS (moved_to (to e_out) there w) there eq_refl)
    as Hlook1. unfold prints in Hlook1. simpl in Hlook1.
  rewrite H1, Hlook1. cbn [snd].
  match goal with
  | |- context [move DIRECTIONS back ?w1] => set (mid := w1)
  end.
  assert (move DIRECTIONS back mid
          = look DIRECTIONS (moved_to (to e_back) here mid)) as H2.
  { rewrite (move_arrives DIRECTIONS mid back (to e_back)).
    - by apply arrive_moves.
    - left. split; [done|]. by exists there, e_back. }
  pose proof (look_prints DIRECTIONS (moved_to (to e_back) here mid) here eq_refl)
    as Hlook2. unfold prints in Hlook2. simpl in Hlook2.
  rewrite H2, Hlook2. simpl.
  split; [done|]. split; [apply lookup_insert_eq | done].
Qed.

Lemma move_there_and_back_witness :
  let w := Sample.world Sample.room2 ∅ in
  currentRoom (move compass "south" (move compass "north" w).2).2
  = Some Sample.room2
  /\ currentRoom (move compass "north" w).2 = Some Sample.room3.
Proof.
  assert (In "north" compass) as Hnorth by (simpl; auto).
  assert (In "south" compass) as Hsouth by (simpl; auto).
  pose proof (move_there_and_back compass (Sample.world Sample.room2 ∅)
                Sample.room2 Sample.room3 "north" "south"
                (mkExit "3" "" ["door"] []) (Sample.exit_to "2")
                eq_refl Hnorth Hsouth eq_refl eq_refl eq_refl eq_refl
                eq_refl eq_refl) as (H1 & _ & H3).
  split; [exact H1 | exact H3].
Defined.

(* --------------------------------------------------------------------- *)
(** ** More on settings *)
(* --------------------------------------------------------------------- *)


(* --------------------------------------------------------------------- *)
(** ** More on loading the configuration *)
(* --------------------------------------------------------------------- *)

Lemma getConfig_runs fs fileName w :
  getConfig fs fileName w
  = (inr (match fs fileName with Loads v => v | _ => Dict ∅ end),
     with_paged (paged w ++ warning fileName (fs fileName)) w).
Proof.
  unfold getConfig, warning.
  destruct (fs fileName); try reflexivity;
    unfold mret, M_ret; by rewrite app_nil_r, with_paged_id.
Qed.

Lemma config_update_runs other w :
  config_update other w
  = match other with
    | Dict members => (inr tt, with_config (members ∪ config w) w)
    | Text EmptyString => (inr tt, w)
    | Text _ => (inl ValueError, w)
    | _ => (inl TypeError, w)
    end.
Proof. by destruct other as [| | | | |[|]]. Qed.

(** X10: [loadConfig] returns normally exactly when each of the two files
    is missing, a directory, unreadable, not JSON, a JSON object or the
    empty JSON string; any other JSON value in either file makes it
    raise. *)
Theorem loadConfig_returns_iff fs w :
  (loadConfig fs w).1 = inr tt
  <-> acceptable (fs (sampleConfigFile w)) /\ acceptable (fs (configFile w)).
Proof.
  unfold loadConfig, mbind at 1, M_bind at 1, get_world. cbn beta iota.
  unfold mbind at 1, M_bind at 1. rewrite getConfig_runs.
  unfold mbind at 1, M_bind at 1. rewrite config_update_runs.
  destruct (fs (sampleConfigFile w)) as [| | | |[? | | | | |[|]]]; simpl;
    try (split; [discriminate | intros [[] _]]);
    unfold mbind at 1, M_bind at 1; rewrite getConfig_runs;
    rewrite config_update_runs; simpl;
    destruct (fs (configFile w)) as [| | | |[? | | | | |[|]]]; simpl;
    split; try done; try discriminate; intros [_ []].
Qed.

(** X11: when both files are usable as layers, [loadConfig] returns
    normally and every setting comes from the first of the user file, the
    sample file and the configuration held before that has it; it prints
    the warning of the sample file before that of the user file and
    touches nothing else. *)
Theorem loadConfig_precedence fs w sample user :
  layer (fs (sampleConfigFile w)) = Some sample ->
  layer (fs (configFile w)) = Some user ->
  let w' := (loadConfig fs w).2 in
  (loadConfig fs w).1 = inr tt
  /\ (forall key,
        config w' !! key
        = match user !! key, sample !! key with
          | Some value, _ => Some value
          | None, Some value => Some value
          | None, None => config w !! key
          end)
  /\ paged w' = paged w
                ++ warning (sampleConfigFile w) (fs (sampleConfigFile w))
                ++ warning (configFile w) (fs (configFile w))
  /\ rooms w' = rooms w /\ labels w' = labels w
  /\ currentRoom w' = currentRoom w.
Proof.
  intros Hs Hu w'. subst w'.
  destruct (loadConfig_layers fs w sample user Hs Hu) as (Hload & _ & _).
  rewrite Hload. simpl. repeat split; try done.
  intros key. rewrite !lookup_union.
  destruct (user !! key), (sample !! key), (config w !! key); done.
Qed.

Lemma loadConfig_precedence_witness :
  let w := Sample.world Sample.room1 {[ "brief" := JBool true ]} in
  config (loadConfig Persisted.files w).2 !! "last_vnum" = Some (JStr "3")
  /\ config (loadConfig Persisted.files w).2 !! "brief" = Some (JBool true).
Proof.
  destruct (loadConfig_precedence Persisted.files
              (Sample.world Sample.room1 {[ "brief" := JBool true ]})
              ∅ {[ "last_vnum" := JStr "3" ]} eq_refl eq_refl)
    as (_ & Hkeys & _).
  split; [exact (Hkeys "last_vnum") | exact (Hkeys "brief")].
Defined.

(** X12: loading the same usable files a second time changes no setting:
    the configuration after two loads is the one after the first. *)
Theorem loadConfig_twice fs w sample user :
  layer (fs (sampleConfigFile w)) = Some sample ->
  layer (fs (configFile w)) = Some user ->
  config (loadConfig fs (loadConfig fs w).2).2 = config (loadConfig fs w).2.
Proof.
  intros Hs Hu.
  destruct (loadConfig_layers fs w sample user Hs Hu) as (Hload & _ & _).
  rewrite Hload. cbn [snd].
  match goal with |- context [loadConfig fs ?w1] => set (once := w1) end.
  destruct (loadConfig_layers fs once sample user Hs Hu) as (Hagain & _ & _).
  rewrite Hagain. subst once. simpl.
  apply map_eq. intros key. rewrite !lookup_union.
  destruct (user !! key), (sample !! key), (config w !! key); done.
Qed.

Lemma loadConfig_twice_witness :
  let w := Sample.world Sample.room1 {[ "brief" := JBool true ]} in
  config (loadConfig Persisted.files (loadConfig Persisted.files w).2).2
  = config (loadConfig Persisted.files w).2.
Proof.
  exact (loadConfig_twice Persisted.files
           (Sample.world Sample.room1 {[ "brief" := JBool true ]})
           ∅ {[ "last_vnum" := JStr "3" ]} eq_refl eq_refl).
Defined.

(* --------------------------------------------------------------------- *)
(** ** More on startup *)
(* --------------------------------------------------------------------- *)

Lemma loadConfig_keeps_room fs w result w' :
  loadConfig fs w = (result, w') -> currentRoom w' = currentRoom w.
Proof.
  unfold loadConfig, mbind at 1, M_bind at 1, get_world. cbn beta iota.
  unfold mbind at 1, M_bind at 1. rewrite getConfig_runs.
  unfold mbind at 1, M_bind at 1. rewrite config_update_runs.
  destruct (fs (sampleConfigFile w)) as [| | | |[? | | | | |[|]]]; simpl;
    try (intros [= <- <-]; done);
    unfold mbind at 1, M_bind at 1; rewrite getConfig_runs;
    rewrite config_update_runs; simpl;
    destruct (fs (configFile w)) as [| | | |[? | | | | |[|]]]; simpl;
    intros [= <- <-]; done.
Qed.

Lemma first_sorted_keeps_world known w :
  (first_sorted known w).2 = w.
Proof.
  unfold first_sorted. by destruct (merge_sort str_le (map_to_list known).*1).
Qed.

Lemma first_sorted_empty w : first_sorted ∅ w = (inl IndexError, w).
Proof. unfold first_sorted. by rewrite map_to_list_empty. Qed.

(** X13: on an empty room graph [__init__] raises IndexError once the
    configuration is loaded, whatever last_vnum the configuration holds
    (short of a list or an object): the greeting and the warnings are
    printed, no room is set. *)
Theorem init_fails_on_empty_graph (DIRECTIONS : list string) fs w loaded :
  rooms w = ∅ ->
  loadConfig fs (greeted w) = (inr tt, loaded) ->
  hashable_last_vnum (config loaded) ->
  init DIRECTIONS fs w = (inl IndexError, loaded).
Proof.
  intros Hempty Hload Hhash.
  destruct (loadConfig_frame _ _ _ _ Hload) as [Hrooms _]. simpl in Hrooms.
  rewrite init_after_greeting.
  unfold mbind at 1, M_bind at 1. rewrite Hload.
  unfold mbind at 1, M_bind at 1, get_world.
  unfold mbind at 1, M_bind at 1.
  rewrite Hrooms, Hempty. unfold hashable_last_vnum in Hhash.
  unfold config_get.
  destruct (config loaded !! "last_vnum") as [[]|]; try done;
    rewrite ?lookup_empty; simpl; by rewrite first_sorted_empty.
Qed.

Lemma init_fails_on_empty_graph_witness :
  let w := mkWorld ∅ ∅ ∅ None "data/emulation_config.json"
                   "data/emulation_config.json.sample" [] in
  (init compass Persisted.files w).1 = inl IndexError
  /\ paged (init compass Persisted.files w).2
     = [["Welcome to Mume Map Emulation!"]; ["Loading the world database."];
        ["Loaded 0 rooms."];
        ["Error: 'data/emulation_config.json.sample' is a directory, not a file."]].
Proof.
  intros w.
  rewrite (init_fails_on_empty_graph compass Persisted.files w
             (loadConfig Persisted.files (greeted w)).2 eq_refl eq_refl I).
  split; reflexivity.
Defined.

(** X14: a configuration whose last_vnum is a JSON array or object makes
    [__init__] raise TypeError at the membership test, before any room is
    looked up. *)
Theorem init_fails_on_unhashable_last_vnum (DIRECTIONS : list string)
    fs w loaded :
  loadConfig fs (greeted w) = (inr tt, loaded) ->
  ~ hashable_last_vnum (config loaded) ->
  init DIRECTIONS fs w = (inl TypeError, loaded).
Proof.
  intros Hload Hhash.
  rewrite init_after_greeting.
  unfold mbind at 1, M_bind at 1. rewrite Hload.
  unfold mbind at 1, M_bind at 1, get_world.
  unfold mbind at 1, M_bind at 1.
  unfold hashable_last_vnum in Hhash. unfold config_get.
  destruct (config loaded !! "last_vnum") as [[]|]; try done;
    by destruct Hhash.
Qed.

Lemma init_fails_on_unhashable_last_vnum_witness :
  let files := fun path : string =>
                 if path =? "data/emulation_config.json"
                 then Loads (Dict {[ "last_vnum" := JList [] ]})
                 else NoSuchFile in
  (init compass files Persisted.world).1 = inl TypeError.
Proof.
  intros files.
  rewrite (init_fails_on_unhashable_last_vnum compass files Persisted.world
             (loadConfig files (greeted Persisted.world)).2 eq_refl);
    [reflexivity|].
  vm_compute. intros H. exact H.
Defined.

(** [__init__] either raises before its call of [move], or ends with
    it, from a world that has the rooms and the current room it began
    with. *)
Lemma init_ends_with_move (DIRECTIONS : list string) fs w :
  exists loaded,
    currentRoom loaded = currentRoom w /\ rooms loaded = rooms w
    /\ ((exists e, init DIRECTIONS fs w = (inl e, loaded))
        \/ (exists v, init DIRECTIONS fs w = move DIRECTIONS v loaded)).
Proof.
  remember (init DIRECTIONS fs w) as r eqn:Hr.
  rewrite init_after_greeting in Hr.
  unfold mbind at 1, M_bind at 1 in Hr.
  destruct (loadConfig fs (greeted w)) as [[e|[]] loaded] eqn:Hload;
    pose proof (loadConfig_keeps_room _ _ _ _ Hload) as Hroom;
    destruct (loadConfig_frame _ _ _ _ Hload) as [Hrooms _];
    simpl in Hroom, Hrooms; exists loaded; (split; [done|]); (split; [done|]).
  { left. by exists e. }
  unfold mbind at 1, M_bind at 1, get_world in Hr.
  unfold mbind at 1, M_bind at 1 in Hr.
  match type of Hr with
  | _ = match ?m loaded with _ => _ end =>
      assert ((m loaded).2 = loaded) as Hm;
      [|destruct (m loaded) as [[e|v] w1]; simpl in Hm; subst w1 r]
  end.
  - destruct (config_get loaded "last_vnum" (JStr "0")); try done;
      try apply first_sorted_keeps_world.
    case_bool_decide; [done | apply first_sorted_keeps_world].
  - left. by exists e.
  - right. by exists v.
Qed.

(** X15: however [__init__] ends, it leaves either last_vnum naming the
    current room, or the current room that the world had before: a start
    that is refused or raises sets no room. *)
Theorem init_sets_position_or_nothing (DIRECTIONS : list string) fs w :
  positioned (init DIRECTIONS fs w).2
  \/ currentRoom (init DIRECTIONS fs w).2 = currentRoom w.
Proof.
  destruct (init_ends_with_move DIRECTIONS fs w)
    as (loaded & Hroom & Hrooms & [[e H]|[v H]]); rewrite H.
  - by right.
  - destruct (move_cases DIRECTIONS v loaded)
      as [[pages Hm]|[(Hnone & Hin & Hm)|(v' & room & pages & Hv & Hm)]].
    + right. unfold prints in Hm. by rewrite Hm.
    + right. by rewrite Hm.
    + left. rewrite Hm. exists v', room. simpl.
      by rewrite lookup_insert_eq.
Qed.

(* --------------------------------------------------------------------- *)
(** ** More on the command line *)
(* --------------------------------------------------------------------- *)

Lemma append_empty_r s : s +:+ "" = s.
Proof.
  induction s as [|c s IH]; [done|].
  change (String c (s +:+ "") = String c s). by f_equal.
Qed.

Lemma take_drop_while p s : s = take_while p s +:+ drop_while p s.
Proof.
  induction s as [|c s IH]; simpl; [done|].
  destruct (p c); [|reflexivity].
  change (String c s = String c (take_while p s +:+ drop_while p s)).
  by f_equal.
Qed.

Lemma take_while_all p s : PyStr.all_chars p (take_while p s) = true.
Proof.
  induction s as [|c s IH]; simpl; [done|].
  destruct (p c) eqn:Hc; simpl; [by rewrite Hc | done].
Qed.

Lemma drop_while_head p s c rest :
  drop_while p s = String c rest -> p c = false.
Proof.
  induction s as [|d s IH]; simpl; [done|].
  destruct (p d) eqn:Hd; [done|]. by intros [= <- _].
Qed.

(** X16: the two groups that [parseInput] takes from a line split it
    faithfully: the line is the command, then, when there are arguments,
    a run of white space, the arguments and a remainder that is empty or
    begins with a newline; the command is not empty and holds no white
    space, the arguments hold no newline and do not begin with white
    space, and there are no arguments exactly when nothing follows the
    command. *)
Theorem match_input_splits userInput command arguments :
  match_input userInput = Some (command, arguments) ->
  command <> "" /\ spaceless command
  /\ match arguments with
     | None => userInput = command
     | Some text =>
         exists gap rest,
           userInput = command +:+ gap +:+ text +:+ rest
           /\ gap <> "" /\ PyStr.all_chars PyStr.isspace gap = true
           /\ PyStr.all_chars (fun c => negb (PyStr.code c =? 10)%N) text = true
           /\ (forall c s, text = String c s -> PyStr.isspace c = false)
           /\ (forall c s, rest = String c s -> PyStr.code c = 10%N)
     end.
Proof.
  unfold match_input.
  pose proof (take_drop_while (fun c => negb (PyStr.isspace c)) userInput) as Hsplit.
  pose proof (take_while_all (fun c => negb (PyStr.isspace c)) userInput) as Hcmd.
  destruct (take_while _ userInput) as [|c0 cmd] eqn:Htake; [done|].
  destruct (drop_while _ userInput) as [|r0 rest0] eqn:Hdrop.
  - intros [= <- <-]. split; [done|]. split; [exact Hcmd|].
    rewrite Hsplit at 1. apply append_empty_r.
  - pose proof (drop_while_head _ _ _ _ Hdrop) as Hr0.
    apply negb_false_iff in Hr0.
    cbn [drop_while take_while]. rewrite Hr0.
    intros [= <- <-]. split; [done|]. split; [exact Hcmd|].
    exists (String r0 (take_while PyStr.isspace rest0)),
      (drop_while (fun c => negb (PyStr.code c =? 10)%N)
                  (drop_while PyStr.isspace rest0)).
    split; [|split; [|split; [|split; [|split]]]].
    + rewrite Hsplit at 1.
      apply (f_equal (String.append (String c0 cmd))).
      change (String r0 rest0
              = String r0 (take_while PyStr.isspace rest0
                           +:+ take_while (fun c => negb (PyStr.code c =? 10)%N)
                                 (drop_while PyStr.isspace rest0)
                           +:+ drop_while (fun c => negb (PyStr.code c =? 10)%N)
                                 (drop_while PyStr.isspace rest0))).
      f_equal.
      etransitivity; [apply (take_drop_while PyStr.isspace)|].
      apply (f_equal (String.append _)). apply take_drop_while.
    + done.
    + cbn [PyStr.all_chars]. rewrite Hr0. apply take_while_all.
    + apply take_while_all.
    + intros c s Hc.
      destruct (drop_while PyStr.isspace rest0) as [|d s'] eqn:Hd; [done|].
      pose proof (drop_while_head _ _ _ _ Hd) as Hhead.
      cbn [take_while] in Hc.
      destruct (negb (PyStr.code d =? 10)%N); [|done].
      by injection Hc as <- _.
    + intros c s Hc. apply drop_while_head in Hc.
      apply negb_false_iff, N.eqb_eq in Hc. exact Hc.
Qed.

Lemma match_input_splits_witness :
  match_input ("rnote   dark  cave" +:+ String "010" "x")
  = Some ("rnote", Some "dark  cave")
  /\ "rnote" <> "" /\ spaceless "rnote".
Proof.
  split; [reflexivity|].
  destruct (match_input_splits ("rnote   dark  cave" +:+ String "010" "x")
              "rnote" (Some "dark  cave") eq_refl) as (H1 & H2 & _).
  split; [exact H1 | exact H2].
Defined.

(** X17: a line has no command, and [parseInput] raises AttributeError
    without doing anything, exactly when the line is empty or begins with
    white space. *)
Theorem parseInput_needs_a_command (DIRECTIONS : list string)
    world_command userInput :
  (match_input userInput = None
   <-> userInput = "" \/ exists c s, userInput = String c s /\ PyStr.isspace c = true)
  /\ (match_input userInput = None ->
      forall w, parseInput DIRECTIONS world_command userInput w
                = (inl AttributeError, w)).
Proof.
  split.
  - unfold match_input. destruct userInput as [|c s]; simpl.
    + split; [by left | done].
    + destruct (PyStr.isspace c) eqn:Hc; simpl.
      * split; [|done]. intros _. right. by exists c, s.
      * split.
        -- by destruct (drop_while _ s).
        -- intros [H|(c' & s' & [= <- <-] & H)]; [done|]. by rewrite H in Hc.
  - intros H w. unfold parseInput. by rewrite H.
Qed.

(** X18: the arguments of a line matter to the commands of [World] only:
    two lines with the same command that is none of these commands are
    handled alike. *)
Theorem parseInput_ignores_arguments (DIRECTIONS : list string) world_command
    first second command arguments arguments' :
  match_input first = Some (command, arguments) ->
  match_input second = Some (command, arguments') ->
  ~ In command world_commands ->
  parseInput DIRECTIONS world_command first
  = parseInput DIRECTIONS world_command second.
Proof.
  intros H1 H2 Hw. apply mem_false in Hw.
  unfold parseInput. rewrite H1, H2, Hw. reflexivity.
Qed.

Lemma parseInput_ignores_arguments_witness :
  parseInput compass no_world_command "north by northwest"
  = parseInput compass no_world_command "north".
Proof.
  apply (parseInput_ignores_arguments compass no_world_command
           "north by northwest" "north" "north" (Some "by northwest") None);
    [reflexivity | reflexivity |].
  vm_compute. intuition discriminate.
Defined.

Lemma digit_first_no_prefix c s t :
  PyStr.isdigit_char c = true -> no_digit_first t ->
  String.prefix (String c s) t = false /\ (String c s =? t) = false.
Proof.
  intros Hc Ht. destruct t as [|d t]; [done|]. simpl in Ht.
  assert (c <> d) as Hne by (intros ->; congruence).
  split.
  - rewrite prefix_cons. by destruct (ascii_dec c d).
  - cbn [String.eqb]. apply Ascii.eqb_neq in Hne. by rewrite Hne.
Qed.

Lemma digit_first_not_among c s l :
  PyStr.isdigit_char c = true -> Forall no_digit_first l ->
  PyStr.mem (String c s) l = false.
Proof.
  intros Hc. induction 1 as [|t l Ht Hl IH]; [done|].
  unfold PyStr.mem in *. cbn [existsb].
  destruct (digit_first_no_prefix c s t Hc Ht) as [_ ->]. exact IH.
Qed.

(** X19: a line whose command is numeric and abbreviates no direction is
    a move to that room identifier: none of the other commands can begin
    with a digit. *)
Theorem parseInput_number_moves (DIRECTIONS : list string) world_command
    userInput command arguments :
  match_input userInput = Some (command, arguments) ->
  PyStr.isdigit command = true ->
  matching DIRECTIONS command = [] ->
  parseInput DIRECTIONS world_command userInput = move DIRECTIONS command.
Proof.
  intros Hm Hdigit Hnone.
  assert (exists c s, command = String c s /\ PyStr.isdigit_char c = true)
    as (c & s & Hcmd & Hc).
  { destruct command as [|c s]; [done|]. exists c, s. split; [done|].
    simpl in Hdigit. by apply andb_prop in Hdigit as [Hc _]. }
  unfold parseInput. rewrite Hm. fold (matching DIRECTIONS command).
  rewrite Hnone. cbn [PyStr.join PyStr.nonempty]. unfold PyStr.startswith.
  rewrite Hdigit. subst command.
  destruct (digit_first_no_prefix c s "look" Hc eq_refl) as [-> _].
  destruct (digit_first_no_prefix c s "exits" Hc eq_refl) as [-> _].
  destruct (digit_first_no_prefix c s "vnum" Hc eq_refl) as [_ ->].
  destruct (digit_first_no_prefix c s "brief" Hc eq_refl) as [_ ->].
  destruct (digit_first_no_prefix c s "terrain" Hc eq_refl) as [_ ->].
  rewrite (digit_first_not_among c s world_commands Hc)
    by (unfold world_commands; repeat constructor).
  reflexivity.
Qed.

Lemma parseInput_number_moves_witness :
  parseInput compass no_world_command "5 please" = move compass "5".
Proof.
  exact (parseInput_number_moves compass no_world_command "5 please" "5"
           (Some "please") eq_refl eq_refl eq_refl).
Defined.

(** X20: the commands vnum, brief and terrain, when they abbreviate no
    direction, toggle the settings show_vnum, brief and
    use_terrain_symbols: the setting then holds a boolean, and the one
    line printed says enabled exactly when that boolean is True. *)
Theorem parseInput_toggles (DIRECTIONS : list string) world_command
    userInput command arguments setting what w :
  match_input userInput = Some (command, arguments) ->
  matching DIRECTIONS command = [] ->
  In (command, setting, what) toggle_commands ->
  let b := eq_False (config_get w setting (JBool true)) in
  parseInput DIRECTIONS world_command userInput w
  = (inr tt,
     with_paged (paged w ++ [[what +:+ " "
                              +:+ (if b then "enabled" else "disabled")
                              +:+ "."]])
                (with_config (<[setting := JBool b]> (config w)) w)).
Proof.
  intros Hm Hnone Hin b.
  unfold parseInput. rewrite Hm. fold (matching DIRECTIONS command).
  rewrite Hnone. cbn [PyStr.join PyStr.nonempty].
  destruct Hin as [[= <- <- <-]|[[= <- <- <-]|[[= <- <- <-]|[]]]];
    cbn; unfold mbind, M_bind; rewrite toggleSetting_runs; fold b;
    by destruct b.
Qed.

Lemma parseInput_toggles_witness :
  parseInput compass no_world_command "vnum" (Sample.world Sample.room1 ∅)
  = (inr tt,
     with_paged [["Show room vnum disabled."]]
                (with_config {[ "show_vnum" := JBool false ]}
                             (Sample.world Sample.room1 ∅))).
Proof.
  assert (In ("vnum", "show_vnum", "Show room vnum") toggle_commands) as Hin
    by (simpl; auto).
  exact (parseInput_toggles compass no_world_command "vnum" "vnum" None
           "show_vnum" "Show room vnum" (Sample.world Sample.room1 ∅)
           eq_refl eq_refl Hin).
Defined.

Lemma prefix_of_look command :
  String.prefix command "look" = true ->
  In command [""; "l"; "lo"; "loo"; "look"].
Proof.
  intros H.
  do 4 (destruct command as [|? command]; [simpl; auto 10|];
        rewrite prefix_cons in H;
        destruct (ascii_dec _ _); [subst|discriminate H]).
  destruct command; [simpl; auto 10 | discriminate H].
Qed.

Lemma prefix_of_exits command :
  String.prefix command "exits" = true ->
  In command [""; "e"; "ex"; "exi"; "exit"; "exits"].
Proof.
  intros H.
  do 5 (destruct command as [|? command]; [simpl; auto 10|];
        rewrite prefix_cons in H;
        destruct (ascii_dec _ _); [subst|discriminate H]).
  destruct command; [simpl; auto 10 | discriminate H].
Qed.

(** X21: with the six directions, every abbreviation of look renders the
    room, and every abbreviation of exits of two letters or more runs the
    long exits listing, while the single letter e goes east: directions
    are tried before the other commands. *)
Theorem compass_abbreviations world_command userInput command arguments :
  match_input userInput = Some (command, arguments) ->
  (String.prefix command "look" = true ->
   parseInput compass world_command userInput = look compass)
  /\ (String.prefix command "exits" = true ->
      if command =? "e"
      then parseInput compass world_command userInput = move compass "east"
      else parseInput compass world_command userInput = longExits compass).
Proof.
  intros Hm. pose proof (match_input_command _ _ _ Hm) as Hne.
  split; intros Hp.
  - apply prefix_of_look in Hp.
    repeat (destruct Hp as [<-|Hp]; [try done; unfold parseInput; by rewrite Hm|]).
    destruct Hp.
  - apply prefix_of_exits in Hp.
    repeat (destruct Hp as [<-|Hp]; [try done; unfold parseInput; by rewrite Hm|]).
    destruct Hp.
Qed.

Lemma compass_abbreviations_witness :
  parseInput compass no_world_command "lo around" = look compass
  /\ parseInput compass no_world_command "e" = move compass "east"
  /\ parseInput compass no_world_command "ex" = longExits compass.
Proof.
  split; [|split].
  - exact (proj1 (compass_abbreviations no_world_command "lo around" "lo"
                    (Some "around") eq_refl) eq_refl).
  - exact (proj2 (compass_abbreviations no_world_command "e" "e" None eq_refl)
                 eq_refl).
  - exact (proj2 (compass_abbreviations no_world_command "ex" "ex" None eq_refl)
                 eq_refl).
Defined.

(* --------------------------------------------------------------------- *)
(** ** The interpreter loop *)
(* --------------------------------------------------------------------- *)

Section LoopFacts.

Variable DIRECTIONS : list string.
Variable TERRAIN_SYMBOLS : list (string * string).
Variable world_command : string -> option string -> M unit.

Lemma with_wld_id e : with_wld (wld e) e = e.
Proof. by destruct e. Qed.

Lemma symbol_prompt_runs items w room :
  currentRoom w = Some room ->
  exists p, symbol_prompt items w = (inr p, w).
Proof.
  intros Hroom. induction items as [|[symbol t] items IH]; simpl.
  - by exists "> ".
  - unfold mbind, M_bind, current. rewrite Hroom.
    destruct (t =? terrain room); [by eexists | exact IH].
Qed.

(** With a current room the prompt is built without any effect. *)
Lemma prompt_runs w room :
  currentRoom w = Some room ->
  exists p, prompt TERRAIN_SYMBOLS w = (inr p, w).
Proof.
  intros Hroom. unfold prompt, mbind at 1, M_bind at 1, get_world.
  cbn beta iota.
  destruct (negb (truthy (config_get w "use_terrain_symbols" JNull))).
  - unfold mbind, M_bind, current. rewrite Hroom. by eexists.
  - by apply symbol_prompt_runs with room.
Qed.

(** One turn of the loop, once the prompt is built. *)
Lemma run_loop_turn raw rest e p :
  prompt TERRAIN_SYMBOLS (wld e) = (inr p, wld e) ->
  run_loop DIRECTIONS TERRAIN_SYMBOLS world_command (raw :: rest) e
  = let e1 := with_prompted (prompted e ++ [p]) e in
    let userInput := lower (PyStr.strip raw) in
    if negb (PyStr.nonempty userInput)
    then run_loop DIRECTIONS TERRAIN_SYMBOLS world_command rest e1
    else if PyStr.startswith "quit" userInput then (inr rest, e1)
    else match lift (parseInput DIRECTIONS world_command userInput) e1 with
         | (inl x, e2) => (inl x, e2)
         | (inr _, e2) =>
             run_loop DIRECTIONS TERRAIN_SYMBOLS world_command rest e2
         end.
Proof.
  intros Hp. cbn [run_loop]. unfold lift at 1. rewrite Hp.
  by rewrite with_wld_id.
Qed.

Lemma run_loop_end e p :
  prompt TERRAIN_SYMBOLS (wld e) = (inr p, wld e) ->
  run_loop DIRECTIONS TERRAIN_SYMBOLS world_command [] e
  = (inl EOFError, with_prompted (prompted e ++ [p]) e).
Proof.
  intros Hp. cbn [run_loop]. unfold lift at 1. rewrite Hp.
  by rewrite with_wld_id.
Qed.

(** The prompt raises nothing but AttributeError and changes nothing. *)
Lemma prompt_keeps_world w :
  (prompt TERRAIN_SYMBOLS w).2 = w.
Proof.
  unfold prompt, mbind at 1, M_bind at 1, get_world. cbn beta iota.
  assert (forall items, (symbol_prompt items w).2 = w) as Hsym.
  { induction items as [|[symbol t] items IH]; simpl; [done|].
    unfold mbind, M_bind, current.
    destruct (currentRoom w) as [room|]; [|done].
    by destruct (t =? terrain room). }
  destruct (negb (truthy (config_get w "use_terrain_symbols" JNull)));
    [|apply Hsym].
  unfold mbind, M_bind, current. by destruct (currentRoom w).
Qed.

(** The loop itself writes no file and signals nothing. *)
Lemma run_loop_writes_nothing inputs e :
  written (run_loop DIRECTIONS TERRAIN_SYMBOLS world_command inputs e).2
  = written e
  /\ gui_queue (run_loop DIRECTIONS TERRAIN_SYMBOLS world_command inputs e).2
     = gui_queue e.
Proof.
  revert e. induction inputs as [|raw rest IH]; intros e.
  - cbn [run_loop]. unfold lift.
    by destruct (prompt TERRAIN_SYMBOLS (wld e)) as [[x|p] w1].
  - cbn [run_loop]. unfold lift at 1 3.
    destruct (prompt TERRAIN_SYMBOLS (wld e)) as [[x|p] w1]; [done|].
    cbn beta iota zeta.
    destruct (negb (PyStr.nonempty (lower (PyStr.strip raw)))).
    { destruct (IH (with_prompted (prompted (with_wld w1 e) ++ [p])
                                  (with_wld w1 e))) as [H1 H2].
      by rewrite H1, H2. }
    destruct (PyStr.startswith "quit" (lower (PyStr.strip raw))); [done|].
    unfold lift.
    match goal with
    | |- context [parseInput ?d ?c ?u ?w0] =>
        destruct (parseInput d c u w0) as [[x|[]] w2]
    end; [done|].
    match goal with
    | |- context [run_loop _ _ _ rest ?e2] => destruct (IH e2) as [H1 H2]
    end.
    by rewrite H1, H2.
Qed.

End LoopFacts.

Lemma append_cons c a b : String c a +:+ b = String c (a +:+ b).
Proof. reflexivity. Qed.

Lemma append_assoc_r a b c : (a +:+ b) +:+ c = a +:+ (b +:+ c).
Proof.
  induction a as [|x a IH]; [done|].
  rewrite !append_cons. by f_equal.
Qed.

Lemma rev_onto_append s acc : PyStr.rev_onto s acc = PyStr.rev s +:+ acc.
Proof.
  unfold PyStr.rev. revert acc.
  induction s as [|c s IH]; intros acc; [done|].
  cbn [PyStr.rev_onto]. rewrite (IH (String c acc)), (IH (String c "")).
  by rewrite append_assoc_r.
Qed.

Lemma rev_cons c s : PyStr.rev (String c s) = PyStr.rev s +:+ String c "".
Proof. unfold PyStr.rev at 1. cbn [PyStr.rev_onto]. apply rev_onto_append. Qed.

Lemma rev_append a b : PyStr.rev (a +:+ b) = PyStr.rev b +:+ PyStr.rev a.
Proof.
  induction a as [|c a IH].
  - change ("" +:+ b) with b. by rewrite append_empty_r.
  - rewrite append_cons, !rev_cons, IH. apply append_assoc_r.
Qed.

Lemma lstrip_keeps_last x c :
  PyStr.isspace c = false ->
  exists z, PyStr.lstrip (x +:+ String c "") = z +:+ String c "".
Proof.
  intros Hc. induction x as [|d x IH].
  - exists "". change ("" +:+ String c "") with (String c "").
    cbn [PyStr.lstrip]. by rewrite Hc.
  - rewrite append_cons. cbn [PyStr.lstrip].
    destruct (PyStr.isspace d); [exact IH|].
    by exists (String d x).
Qed.

Lemma lstrip_head s c rest :
  PyStr.lstrip s = String c rest -> PyStr.isspace c = false.
Proof.
  induction s as [|d s IH]; cbn [PyStr.lstrip]; [done|].
  destruct (PyStr.isspace d) eqn:Hd; [exact IH|]. by intros [= <- _].
Qed.

Lemma rstrip_keeps_head c s :
  PyStr.isspace c = false ->
  exists z, PyStr.rstrip (String c s) = String c z.
Proof.
  intros Hc. unfold PyStr.rstrip. rewrite rev_cons.
  destruct (lstrip_keeps_last (PyStr.rev s) c Hc) as [z ->].
  rewrite rev_append. by eexists.
Qed.

(** A stripped string does not begin with white space. *)
Lemma strip_head raw c rest :
  PyStr.strip raw = String c rest -> PyStr.isspace c = false.
Proof.
  unfold PyStr.strip. destruct (PyStr.lstrip raw) as [|d t] eqn:Hl; [done|].
  pose proof (lstrip_head _ _ _ Hl) as Hd.
  destruct (rstrip_keeps_head d t Hd) as [z ->]. by intros [= <- _].
Qed.



Lemma lstrip_all_space s :
  PyStr.all_chars PyStr.isspace s = true -> PyStr.lstrip s = "".
Proof.
  induction s as [|c s IH]; cbn [PyStr.all_chars PyStr.lstrip]; [done|].
  intros H. apply andb_prop in H as [Hc Hs]. rewrite Hc. by apply IH.
Qed.

Lemma rev_involutive s : PyStr.rev (PyStr.rev s) = s.
Proof.
  induction s as [|c s IH]; [done|].
  by rewrite rev_cons, rev_append, IH.
Qed.

(** A text without line boundaries is one line, or none when it is
    empty. *)
Lemma splitlines_from_one after_cr cur s :
  unbroken s ->
  PyStr.splitlines_from after_cr cur s
  = match PyStr.rev_onto s cur with
    | "" => []
    | line => [PyStr.rev line]
    end.
Proof.
  revert after_cr cur.
  induction s as [|c s IH]; intros after_cr cur Hs; [by destruct cur|].
  unfold unbroken in Hs. cbn [PyStr.all_chars] in Hs.
  apply andb_prop in Hs as [Hc Hs]. apply negb_true_iff in Hc.
  assert ((PyStr.code c =? 10)%N = false) as Hlf.
  { destruct (PyStr.code c =? 10)%N eqn:H10; [|done].
    apply N.eqb_eq in H10. unfold PyStr.islinebreak in Hc.
    rewrite H10 in Hc. discriminate Hc. }
  cbn [PyStr.splitlines_from PyStr.rev_onto].
  rewrite Hlf, andb_false_r, Hc. by apply IH.
Qed.

Lemma splitlines_one c s :
  unbroken (String c s) -> PyStr.splitlines (String c s) = [String c s].
Proof.
  intros Hs. unfold PyStr.splitlines. rewrite (splitlines_from_one _ _ _ Hs).
  fold (PyStr.rev (String c s)).
  pose proof (rev_involutive (String c s)) as Hrev.
  destruct (PyStr.rev (String c s)) as [|d r]; [discriminate Hrev|].
  by rewrite Hrev.
Qed.

(** [output] pages a text that has no line boundary and begins with a
    character that is no white space as it is. *)
Lemma output_lines_single c s :
  unbroken (String c s) -> PyStr.isspace c = false ->
  output_lines (String c s) = [String c s].
Proof.
  intros Hs Hc. unfold output_lines. rewrite (splitlines_one _ _ Hs).
  cbn [List.filter]. unfold PyStr.strip. cbn [PyStr.lstrip]. rewrite Hc.
  by destruct (rstrip_keeps_head c s Hc) as [z ->].
Qed.

(** Lines that are not blank, stripped and joined, begin with a
    character that is no white space. *)
Lemma join_stripped_head line lines :
  PyStr.nonempty (PyStr.strip line) = true ->
  exists c rest,
    PyStr.join " " (List.map PyStr.strip (line :: lines)) = String c rest
    /\ PyStr.isspace c = false.
Proof.
  intros Hline. destruct (PyStr.strip line) as [|c t] eqn:Hstrip; [done|].
  pose proof (strip_head _ _ _ Hstrip) as Hc.
  cbn [List.map]. rewrite Hstrip.
  destruct (List.map PyStr.strip lines) as [|q qs].
  - by exists c, t.
  - change (PyStr.join " " (String c t :: q :: qs))
      with (String c (t +:+ " " +:+ PyStr.join " " (q :: qs))).
    by eexists _, _.
Qed.

(** The collapsed description is empty exactly when the description has
    no line that is not blank. *)
Lemma collapsed_description_cases room :
  (output_lines (desc room) = [] /\ collapsed_description room = "")
  \/ (output_lines (desc room) <> []
      /\ exists c rest, collapsed_description room = String c rest
                        /\ PyStr.isspace c = false).
Proof.
  unfold collapsed_description.
  fold (output_lines (desc room)).
  destruct (output_lines (desc room)) as [|line lines] eqn:Hlines; [by left|].
  right. split; [done|]. apply join_stripped_head.
  assert (In line (output_lines (desc room))) as Hin
    by (rewrite Hlines; by left).
  unfold output_lines in Hin. by apply filter_In in Hin as [_ Hin].
Qed.

(** X2: with brief mode off, [look] prints the room name and then, as one
    call of the pager, the static description collapsed to a single line:
    the lines of [room.desc] that are not blank, stripped and joined by
    single spaces, however many lines and blank lines the description
    has; the call holds no line exactly when the description has no line
    that is not blank.  The other parts of the output follow it. *)
Theorem look_description_on_one_line (DIRECTIONS : list string) w room :
  currentRoom w = Some room ->
  truthy (config_get w "brief" (JBool true)) = false ->
  let items := sortExits DIRECTIONS (exits room) in
  prints (look DIRECTIONS) w
    ([output_lines (name room);
      (if PyStr.nonempty (collapsed_description room)
       then [collapsed_description room] else []);
      output_lines (dynamicDesc room)]
     ++ look_doors (omap SpecExits.door_entry items)
     ++ [look_exits (List.map (SpecExits.symbol (rooms w)) items)]
     ++ look_footer w room)
  /\ unbroken (collapsed_description room)
  /\ (collapsed_description room = "" <-> output_lines (desc room) = []).
Proof.
  intros Hroom Hbrief items.
  pose proof (collapsed_description_unbroken (desc room)) as Hline.
  fold (collapsed_description room) in Hline.
  pose proof (look_prints DIRECTIONS w room Hroom) as Hlook.
  unfold look_header in Hlook. rewrite Hbrief in Hlook.
  fold (collapsed_description room) in Hlook. fold items in Hlook.
  cbn [negb app] in Hlook.
  destruct (collapsed_description_cases room)
    as [[Hnone Hempty]|(Hsome & c & rest & Hfull & Hc)].
  - rewrite Hempty in *. split; [exact Hlook|]. by split.
  - rewrite Hfull in *.
    rewrite (output_lines_single c rest Hline Hc) in Hlook.
    split; [exact Hlook|]. split; [done|]. by split.
Qed.

Lemma look_description_on_one_line_witness :
  let room := mkRoom "9" "A hall"
                ("High walls." +:+ String "010" (String "010" " Cold air. "))
                "" "indoors" "" ∅ in
  let w := mkWorld Sample.graph ∅ {[ "brief" := JBool false ]} (Some room)
                   "c" "s" [] in
  prints (look compass) w
    [["A hall"]; ["High walls. Cold air."]; []; ["Exits: None!"]; ["Vnum: 9"]].
Proof.
  intros room w.
  exact (proj1 (look_description_on_one_line compass w room eq_refl eq_refl)).
Defined.

Lemma positioned_with_paged p w : positioned w -> positioned (with_paged p w).
Proof. intros (v & room & H). by exists v, room. Qed.

Lemma positioned_after_move (DIRECTIONS : list string) text w :
  positioned w -> positioned (move DIRECTIONS text w).2.
Proof.
  intros (v0 & room0 & Hcfg & Hrooms & Hcur).
  destruct (move_cases DIRECTIONS text w)
    as [[pages H]|[(Hroom & Hin & H)|(v & room & pages & Hv & H)]].
  - unfold prints in H. rewrite H. by exists v0, room0.
  - rewrite H. by exists v0, room0.
  - rewrite H. exists v, room. simpl. by rewrite lookup_insert_eq.
Qed.

Lemma positioned_after_toggle setting what w :
  setting <> "last_vnum" ->
  positioned w ->
  positioned ((status ← toggleSetting setting; report what status) w).2.
Proof.
  intros Hne (v & room & Hcfg & Hrooms & Hcur).
  unfold mbind, M_bind. rewrite toggleSetting_runs. simpl.
  exists v, room. simpl. by rewrite lookup_insert_ne.
Qed.

(** [parseInput] keeps last_vnum naming the current room, if the
    commands of [World] do. *)
Lemma positioned_after_parseInput (DIRECTIONS : list string) world_command
    userInput w :
  (forall command arguments w0,
     positioned w0 -> positioned (world_command command arguments w0).2) ->
  positioned w ->
  positioned (parseInput DIRECTIONS world_command userInput w).2.
Proof.
  intros Hworld Hpos. unfold parseInput.
  destruct (match_input userInput) as [[command arguments]|]; [|done].
  destruct (PyStr.nonempty _); [by apply positioned_after_move|].
  destruct Hpos as (v & room & Hcfg & Hrooms & Hcur).
  assert (positioned w) as Hpos by by exists v, room.
  destruct (PyStr.startswith "look" command).
  { pose proof (look_prints DIRECTIONS w room Hcur) as H.
    unfold prints in H. simpl in H. rewrite H.
    by apply positioned_with_paged. }
  destruct (PyStr.startswith "exits" command).
  { pose proof (longExits_prints DIRECTIONS w room Hcur) as H.
    unfold prints in H. rewrite H. by apply positioned_with_paged. }
  destruct (command =? "vnum"); [by apply positioned_after_toggle|].
  destruct (command =? "brief"); [by apply positioned_after_toggle|].
  destruct (command =? "terrain"); [by apply positioned_after_toggle|].
  destruct (PyStr.mem command world_commands); [by apply Hworld|].
  unfold mbind, M_bind, get_world.
  destruct (PyStr.isdigit command || _); [by apply positioned_after_move|].
  by apply positioned_with_paged.
Qed.

Section LoopProperties.

Variable DIRECTIONS : list string.
Variable TERRAIN_SYMBOLS : list (string * string).
Variable world_command : string -> option string -> M unit.

Lemma positioned_after_loop inputs e :
  (forall command arguments w0,
     positioned w0 -> positioned (world_command command arguments w0).2) ->
  positioned (wld e) ->
  positioned
    (wld (run_loop DIRECTIONS TERRAIN_SYMBOLS world_command inputs e).2).
Proof.
  intros Hworld. revert e.
  induction inputs as [|raw rest IH]; intros e Hpos;
    pose proof Hpos as (v & room & _ & _ & Hroom);
    destruct (prompt_runs TERRAIN_SYMBOLS (wld e) room Hroom) as [p Hp].
  - by rewrite (run_loop_end _ _ _ e p Hp).
  - rewrite (run_loop_turn _ _ _ raw rest e p Hp). cbn zeta.
    destruct (negb (PyStr.nonempty (lower (PyStr.strip raw)))); [by apply IH|].
    destruct (PyStr.startswith "quit" (lower (PyStr.strip raw))); [done|].
    unfold lift. cbn [wld with_prompted].
    pose proof (positioned_after_parseInput DIRECTIONS world_command
                  (lower (PyStr.strip raw)) (wld e) Hworld Hpos) as Hnext.
    destruct (parseInput DIRECTIONS world_command (lower (PyStr.strip raw))
                         (wld e)) as [[x|[]] w2]; [done|].
    by apply IH.
Qed.

End LoopProperties.

(** X23: a line that, stripped and lower-cased, is a non-empty
    abbreviation of quit ends the session whatever follows it: the
    configuration as it stands is dumped to the user file, "Good bye." is
    printed, the user interface is signalled once if there is one, and
    the lines after it are not read.  When the file cannot be opened the
    thread ends with IOError instead, with no farewell and no signal. *)
Theorem run_quits (DIRECTIONS : list string) TERRAIN_SYMBOLS world_command
    writable (use_gui : bool) raw rest e room :
  currentRoom (wld e) = Some room ->
  lower (PyStr.strip raw) <> "" ->
  String.prefix (lower (PyStr.strip raw)) "quit" = true ->
  exists p,
    prompt TERRAIN_SYMBOLS (wld e) = (inr p, wld e)
    /\ run DIRECTIONS TERRAIN_SYMBOLS world_command writable use_gui
           (raw :: rest) e
       = if writable (configFile (wld e))
         then (inr rest,
               mkEmulator
                 (with_paged (paged (wld e) ++ [["Good bye."]]) (wld e))
                 (prompted e ++ [p])
                 (Some (configFile (wld e), config (wld e)))
                 (if use_gui then S (gui_queue e) else gui_queue e))
         else (inl IOError, with_prompted (prompted e ++ [p]) e).
Proof.
  intros Hroom Hne Hquit.
  destruct (prompt_runs TERRAIN_SYMBOLS (wld e) room Hroom) as [p Hp].
  exists p. split; [exact Hp|].
  unfold run, mbind at 1, R_bind at 1.
  rewrite (run_loop_turn _ _ _ raw rest e p Hp). cbn zeta.
  destruct (lower (PyStr.strip raw)) as [|c s] eqn:Hu; [done|].
  cbn [PyStr.nonempty negb]. unfold PyStr.startswith. rewrite Hquit.
  unfold mbind at 1, R_bind at 1, saveConfig. cbn [wld with_prompted].
  destruct (writable (configFile (wld e))); [|done].
  by destruct use_gui.
Qed.

Lemma run_quits_witness :
  let e := mkEmulator (Sample.world Sample.room2 ∅) [] None 0 in
  run compass [] no_world_command (fun _ => true) true ["  QU "; "north"] e
  = (inr ["north"],
     mkEmulator (with_paged [["Good bye."]] (Sample.world Sample.room2 ∅))
                ["city> "]
                (Some ("data/emulation_config.json", ∅)) 1).
Proof.
  intros e.
  destruct (run_quits compass [] no_world_command (fun _ => true) true
              "  QU " ["north"] e Sample.room2 eq_refl)
    as (p & Hp & Hrun).
  - vm_compute. discriminate.
  - reflexivity.
  - vm_compute in Hp. injection Hp as <-. exact Hrun.
Defined.

(** X24: a line of white space only is skipped: after the prompt the
    loop goes on with the next line as if the blank one had not been
    typed. *)
Theorem run_skips_blank_lines (DIRECTIONS : list string) TERRAIN_SYMBOLS
    world_command writable (use_gui : bool) raw rest e room :
  currentRoom (wld e) = Some room ->
  PyStr.all_chars PyStr.isspace raw = true ->
  exists p,
    prompt TERRAIN_SYMBOLS (wld e) = (inr p, wld e)
    /\ run DIRECTIONS TERRAIN_SYMBOLS world_command writable use_gui
           (raw :: rest) e
       = run DIRECTIONS TERRAIN_SYMBOLS world_command writable use_gui rest
             (with_prompted (prompted e ++ [p]) e).
Proof.
  intros Hroom Hblank.
  destruct (prompt_runs TERRAIN_SYMBOLS (wld e) room Hroom) as [p Hp].
  exists p. split; [exact Hp|].
  unfold run, mbind at 1 6, R_bind at 1 6.
  rewrite (run_loop_turn _ _ _ raw rest e p Hp). cbn zeta.
  unfold PyStr.strip. rewrite (lstrip_all_space raw Hblank). reflexivity.
Qed.

Lemma run_skips_blank_lines_witness :
  let e := mkEmulator (Sample.world Sample.room2 ∅) [] None 0 in
  run compass [] no_world_command (fun _ => true) false ["   "; "q"] e
  = run compass [] no_world_command (fun _ => true) false ["q"]
        (with_prompted ["city> "] e).
Proof.
  intros e.
  destruct (run_skips_blank_lines compass [] no_world_command (fun _ => true)
              false "   " ["q"] e Sample.room2 eq_refl eq_refl)
    as (p & Hp & Hrun).
  vm_compute in Hp. injection Hp as <-. exact Hrun.
Defined.

(** X25: if last_vnum names the current room when the loop starts, and
    the commands of [World] keep it so, then the configuration that a
    finished session has dumped names, under last_vnum, the room the
    session ended in. *)
Theorem run_saves_position (DIRECTIONS : list string) TERRAIN_SYMBOLS
    world_command writable (use_gui : bool) inputs e unread e' :
  (forall command arguments w0,
     positioned w0 -> positioned (world_command command arguments w0).2) ->
  positioned (wld e) ->
  run DIRECTIONS TERRAIN_SYMBOLS world_command writable use_gui inputs e
  = (inr unread, e') ->
  exists v room,
    written e' = Some (configFile (wld e'), config (wld e'))
    /\ config (wld e') !! "last_vnum" = Some (JStr v)
    /\ rooms (wld e') !! v = Some room
    /\ currentRoom (wld e') = Some room.
Proof.
  intros Hworld Hpos.
  pose proof (positioned_after_loop DIRECTIONS TERRAIN_SYMBOLS world_command
                inputs e Hworld Hpos) as Hend.
  unfold run, mbind at 1, R_bind at 1.
  destruct (run_loop DIRECTIONS TERRAIN_SYMBOLS world_command inputs e)
    as [[x|left] e1]; [done|].
  simpl in Hend. destruct Hend as (v & room & Hcfg & Hrooms & Hcur).
  unfold mbind at 1, R_bind at 1, saveConfig.
  destruct (writable (configFile (wld e1))); [|done].
  destruct use_gui; intros [= <- <-]; by exists v, room.
Qed.

Lemma run_saves_position_witness :
  let w := Sample.world Sample.room2 {[ "last_vnum" := JStr "2" ]} in
  let e' := mkEmulator
              (with_paged [["The Great Road"]; []; ["Exits: south"];
                           ["Vnum: 3"]; ["Good bye."]]
                          (moved_to "3" Sample.room3 w))
              ["city> "; "road> "]
              (Some ("data/emulation_config.json",
                     <["last_vnum" := JStr "3"]> {[ "last_vnum" := JStr "2" ]}))
              0 in
  run compass [] no_world_command (fun _ => true) false ["n"; "quit"]
      (mkEmulator w [] None 0) = (inr [], e')
  /\ exists v room,
       written e' = Some (configFile (wld e'), config (wld e'))
       /\ config (wld e') !! "last_vnum" = Some (JStr v)
       /\ rooms (wld e') !! v = Some room
       /\ currentRoom (wld e') = Some room.
Proof.
  intros w e'.
  assert (run compass [] no_world_command (fun _ => true) false ["n"; "quit"]
              (mkEmulator w [] None 0) = (inr [], e')) as Hrun by reflexivity.
  split; [exact Hrun|].
  apply (run_saves_position compass [] no_world_command (fun _ => true) false
           ["n"; "quit"] (mkEmulator w [] None 0) [] e').
  - intros command arguments w0 H. exact H.
  - exists "2", Sample.room2. repeat split; reflexivity.
  - exact Hrun.
Defined.

(** X26: [run] reaches [saveConfig] and the stop signal by quitting
    only: when it ends with an exception or at the end of the input, it
    has not dumped the configuration to the configuration file and has
    put no stop signal on the queue of the user interface.  The commands
    of [World] are a parameter that acts on the world only: files that
    they write themselves, the map of savemap for one, are no part of
    the statement. *)
Theorem run_saves_only_on_quit (DIRECTIONS : list string) TERRAIN_SYMBOLS
    world_command writable (use_gui : bool) inputs e x e' :
  run DIRECTIONS TERRAIN_SYMBOLS world_command writable use_gui inputs e
  = (inl x, e') ->
  written e' = written e /\ gui_queue e' = gui_queue e.
Proof.
  pose proof (run_loop_writes_nothing DIRECTIONS TERRAIN_SYMBOLS world_command
                inputs e) as [Hw Hg].
  unfold run, mbind at 1, R_bind at 1.
  destruct (run_loop DIRECTIONS TERRAIN_SYMBOLS world_command inputs e)
    as [[y|left] e1]; simpl in Hw, Hg.
  - by intros [= <- <-].
  - unfold mbind at 1, R_bind at 1, saveConfig.
    destruct (writable (configFile (wld e1))).
    + by destruct use_gui.
    + by intros [= <- <-].
Qed.

Lemma run_saves_only_on_quit_witness :
  let w := Sample.world Sample.room2 ∅ in
  let e' := mkEmulator
              (with_paged [["The Great Road"]; []; ["Exits: south"]; ["Vnum: 3"];
                           ["The Great Road"]; []; ["Exits: south"]; ["Vnum: 3"]]
                          (moved_to "3" Sample.room3 w))
              ["city> "; "road> "; "road> "] None 0 in
  run compass [] no_world_command (fun _ => true) true ["north"; "look"]
      (mkEmulator w [] None 0) = (inl EOFError, e')
  /\ written e' = None /\ gui_queue e' = 0%nat.
Proof.
  intros w e'.
  assert (run compass [] no_world_command (fun _ => true) true
              ["north"; "look"] (mkEmulator w [] None 0)
          = (inl EOFError, e')) as Hrun by reflexivity.
  split; [exact Hrun|].
  exact (run_saves_only_on_quit compass [] no_world_command (fun _ => true)
           true ["north"; "look"] (mkEmulator w [] None 0) EOFError e' Hrun).
Defined.

(** X27: a restart resumes where a session stopped.  When the user file
    holds the dictionary that was saved, with a numeric last_vnum that is
    a room of the graph and neither a direction name nor a label,
    [__init__] returns normally in that room, and the configuration it
    leaves is the saved one over the settings of the sample file. *)
Theorem init_resumes_saved_position (DIRECTIONS : list string) fs w
    saved sample v room :
  fs (configFile w) = Loads (Dict saved) ->
  layer (fs (sampleConfigFile w)) = Some sample ->
  saved !! "last_vnum" = Some (JStr v) ->
  rooms w !! v = Some room ->
  PyStr.isdigit v = true ->
  ~ In v DIRECTIONS ->
  labels w !! v = None ->
  (init DIRECTIONS fs w).1 = inr tt
  /\ currentRoom (init DIRECTIONS fs w).2 = Some room
  /\ config (init DIRECTIONS fs w).2 = saved ∪ sample.
Proof.
  intros Huser Hsample Hlast Hroom Hdigit Hdir Hlabel.
  assert (layer (fs (configFile (greeted w))) = Some saved) as Hu
    by (simpl; by rewrite Huser).
  destruct (loadConfig_layers fs (greeted w) sample saved Hsample Hu)
    as (Hload & _ & _).
  destruct (numeric_not_sentinel v Hdigit) as [Hund Hdeath].
  simpl in Hload.
  match type of Hload with _ = (_, ?w1) => set (loaded := w1) in * end.
  assert (config loaded !! "last_vnum" = Some (JStr v)) as Hcfg
    by (simpl; by apply lookup_union_Some_l).
  assert (init DIRECTIONS fs w
          = look DIRECTIONS (moved_to v room loaded)) as Hinit.
  { rewrite init_after_greeting.
    unfold mbind at 1, M_bind at 1. rewrite Hload.
    unfold mbind at 1, M_bind at 1, get_world.
    unfold mbind at 1, M_bind at 1, config_get. rewrite Hcfg.
    change (rooms loaded) with (rooms w). rewrite Hroom.
    rewrite bool_decide_eq_true_2 by done. cbn beta iota.
    unfold mret, M_ret.
    rewrite (move_arrives DIRECTIONS loaded v v).
    - by apply arrive_moves.
    - right. right. done. }
  pose proof (look_prints DIRECTIONS (moved_to v room loaded) room eq_refl)
    as Hlook.
  unfold prints in Hlook. simpl in Hlook.
  rewrite Hinit, Hlook. simpl. split; [done|]. split; [done|].
  rewrite insert_id by by apply lookup_union_Some_l.
  rewrite (right_id_L ∅ (∪)). done.
Qed.

Lemma init_resumes_saved_position_witness :
  (init compass Persisted.files Persisted.world).1 = inr tt
  /\ currentRoom (init compass Persisted.files Persisted.world).2
     = Some Sample.room3
  /\ config (init compass Persisted.files Persisted.world).2
     = {[ "last_vnum" := JStr "3" ]} ∪ ∅.
Proof.
  apply (init_resumes_saved_position compass Persisted.files Persisted.world
           {[ "last_vnum" := JStr "3" ]} ∅ "3" Sample.room3);
    try reflexivity.
  vm_compute. intuition discriminate.
Defined.

(** X28: the terrain command does nothing visible the first time.  While
    use_terrain_symbols is absent the prompt shows the name of the
    terrain; the first terrain command stores False, since an absent
    setting is toggled as if it were True, and reports "disabled", and
    the prompt is the same as before. *)
Theorem terrain_command_first_time (DIRECTIONS : list string) TERRAIN_SYMBOLS
    world_command userInput arguments w room :
  currentRoom w = Some room ->
  config w !! "use_terrain_symbols" = None ->
  match_input userInput = Some ("terrain", arguments) ->
  matching DIRECTIONS "terrain" = [] ->
  let w' := (parseInput DIRECTIONS world_command userInput w).2 in
  prompt TERRAIN_SYMBOLS w = (inr (terrain room +:+ "> "), w)
  /\ prompt TERRAIN_SYMBOLS w' = (inr (terrain room +:+ "> "), w')
  /\ paged w' = paged w ++ [["Terrain symbols in prompt disabled."]]
  /\ config w' !! "use_terrain_symbols" = Some (JBool false).
Proof.
  intros Hroom Habsent Hm Hnone w'.
  assert (parseInput DIRECTIONS world_command userInput w
          = (inr tt,
             with_paged (paged w ++ [["Terrain symbols in prompt disabled."]])
               (with_config (<["use_terrain_symbols" := JBool false]> (config w))
                            w))) as Hrun.
  { unfold parseInput. rewrite Hm. fold (matching DIRECTIONS "terrain").
    rewrite Hnone. cbn. unfold mbind, M_bind. rewrite toggleSetting_runs.
    unfold config_get. rewrite Habsent. reflexivity. }
  subst w'. rewrite Hrun. cbn [snd].
  split; [|split; [|split]].
  - unfold prompt, mbind at 1, M_bind at 1, get_world, config_get.
    cbn beta iota. rewrite Habsent. cbn [truthy negb].
    unfold mbind, M_bind, current. by rewrite Hroom.
  - unfold prompt, mbind at 1, M_bind at 1, get_world, config_get.
    cbn beta iota. cbn [config with_paged with_config].
    rewrite lookup_insert_eq. cbn [truthy negb].
    unfold mbind, M_bind, current.
    cbn [currentRoom with_paged with_config]. by rewrite Hroom.
  - reflexivity.
  - cbn. apply lookup_insert_eq.
Qed.

Lemma terrain_command_first_time_witness :
  let w := Sample.world Sample.room2 ∅ in
  let w' := (parseInput compass no_world_command "terrain" w).2 in
  prompt [("=", "road"); ("#", "city")] w = (inr "city> ", w)
  /\ prompt [("=", "road"); ("#", "city")] w' = (inr "city> ", w').
Proof.
  intros w w'.
  destruct (terrain_command_first_time compass [("=", "road"); ("#", "city")]
              no_world_command "terrain" None w Sample.room2
              eq_refl eq_refl eq_refl eq_refl) as (H1 & H2 & _).
  split; [exact H1 | exact H2].
Defined.
